(** * MCP integration hub: the ecosystem integrator and the liveness probe

    A shallow embedding of [MCP_ECOSYSTEM_INTEGRATOR.py] and of
    [apple_notes_mcp_server.py], with the properties their specification
    states about them.

    Python values are modelled as follows.
    - [str] is [string]; every string literal of the two programs that ends
      up in a generated document is ASCII.
    - a [dict] literal whose order matters (Python dicts keep insertion
      order, and [json.dump] follows it) is an association list;
    - a [dataclass] is a record, in a module named after the class;
    - the files on disk are a [gmap] from path to content;
    - a method that writes files or prints is a computation in the monad
      [Py], which threads the machine state and may raise. *)

From Stdlib Require Import ZArith Ascii String List DecimalString.
From stdpp Require Import base strings gmap list.

Local Open Scope string_scope.
Local Open Scope list_scope.

Set Warnings "-register-all".

(** ** Characters and text helpers *)

Definition dquote : ascii := ascii_of_nat 34.
Definition backslash : ascii := ascii_of_nat 92.
Definition newline : string := String (ascii_of_nat 10) "".

(** [q s] is [s] between double quotes, as it stands in a TOML or JSON text. *)
Definition q (s : string) : string := String dquote (s +:+ String dquote "").

(** [sep.join(parts)] *)
Fixpoint join (sep : string) (parts : list string) : string :=
  match parts with
  | [] => ""
  | [p] => p
  | p :: rest => p +:+ sep +:+ join sep rest
  end.

(** [s.startswith(p)] *)
Fixpoint startswith (p s : string) : bool :=
  match p, s with
  | "", _ => true
  | String a p', String b s' => if decide (a = b) then startswith p' s' else false
  | String _ _, "" => false
  end.

(** [s[n:]] *)
Fixpoint drop_chars (n : nat) (s : string) : string :=
  match n, s with
  | O, _ => s
  | S n', String _ s' => drop_chars n' s'
  | S _, "" => ""
  end.

(** [s.split(sep)] for a non-empty separator: the pieces between the
    non-overlapping occurrences of [sep], found left to right. [skip] counts
    the characters of an occurrence still to be passed over, [cur] holds the
    current piece reversed. *)
Fixpoint split_go (sep : string) (skip : nat) (cur : string) (s : string)
  : list string :=
  match s with
  | "" => [String.rev cur]
  | String c s' =>
      match skip with
      | S k => split_go sep k cur s'
      | O =>
          if startswith sep s
          then String.rev cur :: split_go sep (String.length sep - 1) "" s'
          else split_go sep 0 (String c cur) s'
      end
  end.

Definition split (sep s : string) : list string := split_go sep 0 "" s.

(** [needle in haystack] *)
Fixpoint contains (needle haystack : string) : bool :=
  startswith needle haystack ||
  match haystack with
  | "" => false
  | String _ h' => contains needle h'
  end.

(** ** JSON documents and [json.dumps] *)

Inductive json : Type :=
  | JNull
  | JBool (b : bool)
  | JInt (z : Z)
  | JStr (s : string)
  | JList (items : list json)
  | JObj (members : list (string * json)).

Module Json.

Definition hex_digit (n : nat) : ascii :=
  ascii_of_nat (if n <? 10 then 48 + n else 87 + n)%nat.

(** [ESCAPE_DCT] of [json.encoder], completed as
    [py_encode_basestring_ascii] does with a backslash-u escape; a character
    is a code point below 256. *)
Definition escape_char (c : ascii) : string :=
  let n := nat_of_ascii c in
  if decide (c = dquote) then String backslash (String dquote "")
  else if decide (c = backslash) then String backslash (String backslash "")
  else if (n =? 8)%nat then String backslash "b"
  else if (n =? 12)%nat then String backslash "f"
  else if (n =? 10)%nat then String backslash "n"
  else if (n =? 13)%nat then String backslash "r"
  else if (n =? 9)%nat then String backslash "t"
  else if ((32 <=? n) && (n <=? 126))%nat then String c ""
  else String backslash
         ("u00" +:+ String (hex_digit (n / 16)) (String (hex_digit (n mod 16)) "")).

Fixpoint escape (s : string) : string :=
  match s with
  | "" => ""
  | String c s' => escape_char c +:+ escape s'
  end.

(** [encode_basestring_ascii] *)
Definition encode_str (s : string) : string := q (escape s).

Fixpoint spaces (n : nat) : string :=
  match n with O => "" | S n' => String " " (spaces n') end.

(** The text put after an opening bracket and between items at nesting
    depth [level]: nothing without [indent], a line break and
    [indent * level] spaces with it. *)
Definition newline_indent (indent : option nat) (level : nat) : string :=
  match indent with
  | None => ""
  | Some w => newline +:+ spaces (w * level)
  end.

(** [item_separator]: [", "] by default, [","] when [indent] is given. *)
Definition item_separator (indent : option nat) : string :=
  match indent with None => ", " | Some _ => "," end.

(** [_iterencode] of [json.encoder], the chunks concatenated. *)
Fixpoint encode (indent : option nat) (level : nat) (v : json) : string :=
  match v with
  | JNull => "null"
  | JBool true => "true"
  | JBool false => "false"
  | JInt z => NilZero.string_of_int (Z.to_int z)
  | JStr s => encode_str s
  | JList [] => "[]"
  | JList items =>
      "[" +:+ newline_indent indent (S level)
      +:+ join (item_separator indent +:+ newline_indent indent (S level))
               (map (encode indent (S level)) items)
      +:+ newline_indent indent level +:+ "]"
  | JObj [] => "{}"
  | JObj members =>
      "{" +:+ newline_indent indent (S level)
      +:+ join (item_separator indent +:+ newline_indent indent (S level))
               (map (fun kv => encode_str (fst kv) +:+ ": "
                               +:+ encode indent (S level) (snd kv)) members)
      +:+ newline_indent indent level +:+ "}"
  end.

(** [json.dumps(v)] and [json.dumps(v, indent=w)] *)
Definition dumps (v : json) : string := encode None 0 v.
Definition dumps_indent (w : nat) (v : json) : string := encode (Some w) 0 v.

(** [d[k]] on a document: the value of the first member named [k]. *)
Fixpoint assoc (k : string) (members : list (string * json)) : option json :=
  match members with
  | [] => None
  | (k', v) :: rest => if decide (k' = k) then Some v else assoc k rest
  end.

Definition get (k : string) (v : json) : option json :=
  match v with
  | JObj members => assoc k members
  | _ => None
  end.

(** [list(d.keys())] *)
Definition keys (v : json) : list string :=
  match v with
  | JObj members => map fst members
  | _ => []
  end.

End Json.

(** ** The liveness probe: [apple_notes_mcp_server.py] *)

Module GenericMCPHandler.

(** What [do_GET] has done when it returns: the status it passed to
    [send_response], the headers it added with [send_header], in order, and
    the bytes it wrote to [wfile]. The [Server] and [Date] headers that
    [send_response] emits by itself on every response are the library's
    and are not recorded. *)
Record Response := {
  status_code : Z;
  send_header_calls : list (string * string);
  body : string
}.

Definition response : json :=
  JObj [("status", JStr "healthy"); ("server", JStr "apple-notes-mcp")].

(** [do_GET]; [path] is [self.path], the request target as
    [parse_request] of [http.server] leaves it (see [request_path]), query
    string included. *)
Definition do_GET (path : string) : Response :=
  if decide (path = "/health") then
    {| status_code := 200;
       send_header_calls := [("Content-type", "application/json")];
       body := Json.dumps response |}
  else
    {| status_code := 404; send_header_calls := []; body := "" |}.

(** [s.lstrip('/')] *)
Fixpoint lstrip_slash (s : string) : string :=
  match s with
  | String c s' => if decide (c = "/"%char) then lstrip_slash s' else s
  | "" => ""
  end.

(** What [BaseHTTPRequestHandler.parse_request] stores in [self.path] for
    the target [raw] of the request line: a target that starts with two
    slashes has its leading slashes reduced to one. *)
Definition request_path (raw : string) : string :=
  if startswith "//" raw then "/" +:+ lstrip_slash raw else raw.

(** A GET request with target [raw], as the library hands it to [do_GET]. *)
Definition handle_GET (raw : string) : Response := do_GET (request_path raw).

End GenericMCPHandler.

(** ** Python effects: exceptions, the file system, the console *)

Inductive PyExn : Type :=
  | OSError (path : string)      (* [open] or [mkdir] refused *)
  | KeyError (key : string)      (* [d[key]] on a dict without [key] *)
  | TypeError.                   (* a subscript or [join] on the wrong kind of value *)

Inductive outcome (A : Type) : Type :=
  | Returned (a : A)
  | Raised (e : PyExn).
Arguments Returned {A} a.
Arguments Raised {A} e.

(** The two calls the program makes on the file system. *)
Inductive SinkOp : Type :=
  | Mkdir (path : string)
  | Open (path : string).

(** What the program reads from outside: the clock, and whether the file
    system lets a call through. *)
Record Env := {
  now_isoformat : string;          (* [datetime.now().isoformat()] *)
  permits : SinkOp -> bool
}.

Module ServerConfig.
(** A value of the [mcp_servers] dict. *)
Record t := {
  name : string;
  path : string;
  capabilities : list string;
  endpoints : list string
}.
End ServerConfig.

Module MCPConnection.
Record t := {
  name : string;
  source : string;
  target : string;
  protocol : string;
  endpoints : list string;
  authentication : string;
  capabilities : list string;
  status : string
}.

(** The constructor the [dataclass] decorator generates: it stores its
    arguments, [status] is [pending] unless given. *)
Definition new (name source target protocol : string) (endpoints : list string)
    (authentication : string) (capabilities : list string) : t :=
  {| name := name; source := source; target := target; protocol := protocol;
     endpoints := endpoints; authentication := authentication;
     capabilities := capabilities; status := "pending" |}.
End MCPConnection.

Module MCPPattern.
Record t := {
  name : string;
  description : string;
  source_components : list string;
  target_components : list string;
  data_flow : string;
  trigger_events : list string;
  response_handling : string
}.

Definition new (name description : string)
    (source_components target_components : list string) (data_flow : string)
    (trigger_events : list string) (response_handling : string) : t :=
  {| name := name; description := description;
     source_components := source_components;
     target_components := target_components; data_flow := data_flow;
     trigger_events := trigger_events; response_handling := response_handling |}.
End MCPPattern.

(** [pathlib]: a path is its text; [p / child] appends a component.

    This is the text [pathlib] produces when [p] is a normalised path with
    at least one component ([normal]) and [child] is relative with no empty
    or [.] component. Outside that domain [pathlib] differs: an absolute
    [child] replaces [p], empty and [.] components are dropped, and
    [Path('.') / x] is [x]. The agreement on that domain is
    [pathlib_div_plain], against the model [Pathlib] of the library; the
    statements about where the artifacts go carry [normal] and
    [plain_name] as hypotheses and are stated on [Pathlib.div]. *)
Module Path.
Definition div (p child : string) : string := p +:+ "/" +:+ child.

(** A component [pathlib] keeps as it is: not empty and not [.]. *)
Definition proper_component (c : string) : bool :=
  negb (bool_decide (c = "")) && negb (bool_decide (c = ".")).

(** The text of [p] is what [str(Path(p))] gives back, and [p] has at
    least one component: no empty or [.] component between its slashes, no
    trailing slash, no double slash in front, not the root, not the
    current directory. *)
Definition normal (p : string) : bool :=
  if startswith "/" p
  then negb (startswith "//" p)
       && match split "/" p with
          | "" :: ((_ :: _) as components) => forallb proper_component components
          | _ => false
          end
  else forallb proper_component (split "/" p).

(** A name without a slash: as a part of a file name it stays within one
    component. *)
Definition plain_name (s : string) : bool := negb (contains "/" s).

(** [p.parent]: [p] without its last component. *)
Definition parent (p : string) : string := join "/" (removelast (split "/" p)).
End Path.
Infix "/:" := Path.div (at level 40, left associativity).

(** [pathlib.PurePosixPath] as the library holds a path: its root and its
    components. It is used to show where the text of [Path.div] is the
    library's. *)
Module Pathlib.

Record t := { root : string; parts : list string }.

(** [posixpath.splitroot]: no root, one slash, or exactly two slashes. *)
Definition root_of (s : string) : string :=
  if startswith "/" s
  then if startswith "//" s && negb (startswith "///" s) then "//" else "/"
  else "".

(** [PurePosixPath(s)]: empty and [.] components are dropped. *)
Definition parse (s : string) : t :=
  {| root := root_of s;
     parts := List.filter Path.proper_component (split "/" s) |}.

(** [str(p)] *)
Definition str (p : t) : string :=
  match root p, parts p with
  | "", [] => "."
  | r, ps => r +:+ join "/" ps
  end.

(** [p / child]: an absolute [child] replaces [p]. *)
Definition joinpath (p : t) (child : string) : t :=
  let c := parse child in
  if bool_decide (root c = "")
  then {| root := root p; parts := parts p ++ parts c |}
  else c.

(** [str(Path(p) / child)] *)
Definition div (p child : string) : string := str (joinpath (parse p) child).

End Pathlib.

(** The integrator object: the attributes [__init__] sets. *)
Record Integrator := {
  base_path : string;
  mcp_connections : list MCPConnection.t;
  mcp_patterns : list MCPPattern.t;
  activepieces_path : string;
  iza_os_path : string;
  mcp_servers : list (string * ServerConfig.t)
}.

(** The machine a run acts on: the integrator object, the files, the calls
    made on the file system so far (oldest first) and the lines printed. *)
Record Machine := {
  self : Integrator;
  files : gmap string string;
  sink_calls : list SinkOp;
  stdout : list string
}.

Definition Py (A : Type) : Type := Env -> Machine -> outcome A * Machine.

#[global] Instance Py_ret : MRet Py := fun A (a : A) _ m => (Returned a, m).

#[global] Instance Py_bind : MBind Py := fun A B (k : A -> Py B) (c : Py A) env m =>
  match c env m with
  | (Returned a, m') => k a env m'
  | (Raised e, m') => (Raised e, m')
  end.

Definition raise {A} (e : PyExn) : Py A := fun _ m => (Raised e, m).

Definition get_self : Py Integrator := fun _ m => (Returned (self m), m).

Definition set_self (o : Integrator) : Py unit :=
  fun _ m => (Returned tt, {| self := o; files := files m;
                              sink_calls := sink_calls m; stdout := stdout m |}).

(** [datetime.now().isoformat()] *)
Definition datetime_now_isoformat : Py string :=
  fun env m => (Returned (now_isoformat env), m).

(** [print(line)] *)
Definition print (line : string) : Py unit :=
  fun _ m => (Returned tt, {| self := self m; files := files m;
                              sink_calls := sink_calls m;
                              stdout := stdout m ++ [line] |}).

(** [p.mkdir(exist_ok=True)] *)
Definition mkdir (p : string) : Py unit :=
  fun env m =>
    let m' := {| self := self m; files := files m;
                 sink_calls := sink_calls m ++ [Mkdir p]; stdout := stdout m |} in
    if permits env (Mkdir p) then (Returned tt, m') else (Raised (OSError p), m').

(** [with open(p, 'w') as f: f.write(content)]: the file holds [content]
    afterwards, or [open] raises and the file is left as it was. *)
Definition write_file (p content : string) : Py unit :=
  fun env m =>
    let calls := sink_calls m ++ [Open p] in
    if permits env (Open p)
    then (Returned tt, {| self := self m; files := <[p := content]> (files m);
                          sink_calls := calls; stdout := stdout m |})
    else (Raised (OSError p), {| self := self m; files := files m;
                                 sink_calls := calls; stdout := stdout m |}).

(** [with open(p, 'w') as f: json.dump(doc, f, indent=2)] *)
Definition json_dump_to (p : string) (doc : json) : Py unit :=
  write_file p (Json.dumps_indent 2 doc).

(** [for x in xs: body(x)] *)
Fixpoint for_each {A} (xs : list A) (body : A -> Py unit) : Py unit :=
  match xs with
  | [] => mret tt
  | x :: rest => body x;; for_each rest body
  end.

(** [d[key]] on a document held as a dict. *)
Definition getitem (key : string) (d : json) : Py json :=
  match d with
  | JObj members =>
      match Json.assoc key members with
      | Some v => mret v
      | None => raise (KeyError key)
      end
  | _ => raise TypeError
  end.

(** A list of [str] as a document. *)
Definition jstrs (l : list string) : json := JList (map JStr l).

(** [str(n)] for a length. *)
Definition str_of_nat (n : nat) : string := NilZero.string_of_uint (Nat.to_uint n).

(** ** The integrator: [MCP_ECOSYSTEM_INTEGRATOR.py] *)

(** [d.get(key, default)] on a dict held in insertion order. *)
Fixpoint dict_get {V} (d : list (string * V)) (key : string) (default : V) : V :=
  match d with
  | [] => default
  | (k, v) :: rest => if decide (k = key) then v else dict_get rest key default
  end.

(** [key in d] *)
Definition dict_has {V} (d : list (string * V)) (key : string) : bool :=
  bool_decide (key ∈ map fst d).

(** [d.get(key)] with [None] for a missing key. *)
Fixpoint dict_lookup {V} (d : list (string * V)) (key : string) : option V :=
  match d with
  | [] => None
  | (k, v) :: rest => if decide (k = key) then Some v else dict_lookup rest key
  end.

Module MCPEcosystemIntegrator.

Definition default_base_path : string := "/Users/divinejohns/memU/memu".

(** [__init__] *)
Definition __init__ (base_path : string) : Integrator :=
  let activepieces_path := base_path /: "worldwidebro-repositories" /: "activepieces" in
  let iza_os_path := base_path /: "iza-os-integrated" in
  {| base_path := base_path;
     mcp_connections := [];
     mcp_patterns := [];
     activepieces_path := activepieces_path;
     iza_os_path := iza_os_path;
     mcp_servers :=
       [("activepieces",
         {| ServerConfig.name := "Activepieces MCP Server";
            ServerConfig.path := activepieces_path;
            ServerConfig.capabilities :=
              ["workflow_orchestration"; "automation"; "api_integration"];
            ServerConfig.endpoints :=
              ["/api/v1/flows"; "/api/v1/triggers"; "/api/v1/actions"] |});
        ("claude_flow",
         {| ServerConfig.name := "Claude Flow MCP Server";
            ServerConfig.path := iza_os_path /: "30-models" /: "claude-flow";
            ServerConfig.capabilities :=
              ["ai_orchestration"; "conversation_management"; "agent_coordination"];
            ServerConfig.endpoints :=
              ["/api/v1/agents"; "/api/v1/conversations"; "/api/v1/workflows"] |});
        ("iza_os_core",
         {| ServerConfig.name := "IZA OS Core MCP Server";
            ServerConfig.path := iza_os_path /: "00-meta";
            ServerConfig.capabilities :=
              ["system_orchestration"; "configuration_management"; "registry_operations"];
            ServerConfig.endpoints :=
              ["/api/v1/config"; "/api/v1/registry"; "/api/v1/status"] |});
        ("github_integration",
         {| ServerConfig.name := "GitHub Integration MCP Server";
            ServerConfig.path := base_path /: "worldwidebro-integration";
            ServerConfig.capabilities :=
              ["repository_management"; "code_analysis"; "collaboration"];
            ServerConfig.endpoints :=
              ["/api/v1/repos"; "/api/v1/analysis"; "/api/v1/collaboration"] |})] |}.

(** [self.mcp_connections = cs] *)
Definition store_connections (cs : list MCPConnection.t) : Py unit :=
  o ← get_self;
  set_self {| base_path := base_path o; mcp_connections := cs;
              mcp_patterns := mcp_patterns o;
              activepieces_path := activepieces_path o;
              iza_os_path := iza_os_path o; mcp_servers := mcp_servers o |}.

(** [self.mcp_patterns = ps] *)
Definition store_patterns (ps : list MCPPattern.t) : Py unit :=
  o ← get_self;
  set_self {| base_path := base_path o; mcp_connections := mcp_connections o;
              mcp_patterns := ps;
              activepieces_path := activepieces_path o;
              iza_os_path := iza_os_path o; mcp_servers := mcp_servers o |}.

(** The list display of [create_mcp_connections]. *)
Definition connection_list : list MCPConnection.t :=
  [MCPConnection.new
      "Activepieces to IZA OS"
      "activepieces"
      "iza_os_core"
      "mcp"
      ["/api/v1/flows"; "/api/v1/config"]
      "api_key"
      ["workflow_orchestration"; "system_configuration"];
   MCPConnection.new
      "Claude Flow to Activepieces"
      "claude_flow"
      "activepieces"
      "mcp"
      ["/api/v1/agents"; "/api/v1/flows"]
      "oauth2"
      ["ai_workflow_integration"; "conversation_automation"];
   MCPConnection.new
      "GitHub to IZA OS"
      "github_integration"
      "iza_os_core"
      "mcp"
      ["/api/v1/repos"; "/api/v1/registry"]
      "github_token"
      ["repository_sync"; "code_analysis"];
   MCPConnection.new
      "IZA OS to Claude Flow"
      "iza_os_core"
      "claude_flow"
      "mcp"
      ["/api/v1/config"; "/api/v1/agents"]
      "internal"
      ["system_orchestration"; "agent_management"];
   MCPConnection.new
      "Activepieces to GitHub"
      "activepieces"
      "github_integration"
      "mcp"
      ["/api/v1/flows"; "/api/v1/repos"]
      "api_key"
      ["workflow_automation"; "repository_operations"]].

(** [create_mcp_connections] *)
Definition create_mcp_connections : Py unit := store_connections connection_list.

(** The list display of [create_mcp_patterns]. *)
Definition pattern_list : list MCPPattern.t :=
  [MCPPattern.new
      "Repository Analysis Workflow"
      "Automated analysis of new repositories using AI agents"
      ["github_integration"; "claude_flow"]
      ["iza_os_core"; "activepieces"]
      "github -> claude_flow -> iza_os_core -> activepieces"
      ["new_repository"; "code_push"; "pull_request"]
      "async_with_webhook";
   MCPPattern.new
      "AI Agent Orchestration"
      "Coordinate AI agents across different systems"
      ["claude_flow"; "iza_os_core"]
      ["activepieces"; "github_integration"]
      "claude_flow -> iza_os_core -> activepieces -> github_integration"
      ["agent_request"; "workflow_trigger"; "system_event"]
      "real_time_streaming";
   MCPPattern.new
      "System Health Monitoring"
      "Monitor and maintain system health across all components"
      ["iza_os_core"; "activepieces"]
      ["claude_flow"; "github_integration"]
      "iza_os_core -> activepieces -> claude_flow -> github_integration"
      ["health_check"; "performance_alert"; "error_detection"]
      "immediate_response";
   MCPPattern.new
      "Workflow Automation Chain"
      "Chain multiple workflows across different systems"
      ["activepieces"; "claude_flow"]
      ["github_integration"; "iza_os_core"]
      "activepieces -> claude_flow -> github_integration -> iza_os_core"
      ["workflow_start"; "task_completion"; "user_action"]
      "sequential_processing"].

(** [create_mcp_patterns] *)
Definition create_mcp_patterns : Py unit := store_patterns pattern_list.

Definition tools_map : list (string * list json) :=
  [("activepieces",
    [JObj
       [("name", JStr "create_workflow");
        ("description", JStr "Create a new workflow in Activepieces");
        ("inputSchema", JObj
           [("type", JStr "object");
            ("properties", JObj
               [("name", JObj [("type", JStr "string")]);
                ("trigger", JObj [("type", JStr "string")]);
                ("actions", JObj [("type", JStr "array")])])])];
     JObj
       [("name", JStr "execute_workflow");
        ("description", JStr "Execute a workflow");
        ("inputSchema", JObj
           [("type", JStr "object");
            ("properties", JObj
               [("workflow_id", JObj [("type", JStr "string")]);
                ("input_data", JObj [("type", JStr "object")])])])]]);
   ("claude_flow",
    [JObj
       [("name", JStr "create_agent");
        ("description", JStr "Create a new AI agent");
        ("inputSchema", JObj
           [("type", JStr "object");
            ("properties", JObj
               [("name", JObj [("type", JStr "string")]);
                ("capabilities", JObj [("type", JStr "array")]);
                ("prompt", JObj [("type", JStr "string")])])])];
     JObj
       [("name", JStr "orchestrate_agents");
        ("description", JStr "Orchestrate multiple agents");
        ("inputSchema", JObj
           [("type", JStr "object");
            ("properties", JObj
               [("agents", JObj [("type", JStr "array")]);
                ("task", JObj [("type", JStr "string")])])])]]);
   ("iza_os_core",
    [JObj
       [("name", JStr "update_config");
        ("description", JStr "Update system configuration");
        ("inputSchema", JObj
           [("type", JStr "object");
            ("properties", JObj
               [("config_path", JObj [("type", JStr "string")]);
                ("config_data", JObj [("type", JStr "object")])])])];
     JObj
       [("name", JStr "register_component");
        ("description", JStr "Register a new component");
        ("inputSchema", JObj
           [("type", JStr "object");
            ("properties", JObj
               [("component_name", JObj [("type", JStr "string")]);
                ("component_type", JObj [("type", JStr "string")]);
                ("endpoints", JObj [("type", JStr "array")])])])]]);
   ("github_integration",
    [JObj
       [("name", JStr "analyze_repository");
        ("description", JStr "Analyze a GitHub repository");
        ("inputSchema", JObj
           [("type", JStr "object");
            ("properties", JObj
               [("repo_url", JObj [("type", JStr "string")]);
                ("analysis_type", JObj [("type", JStr "string")])])])];
     JObj
       [("name", JStr "sync_repositories");
        ("description", JStr "Sync repositories with IZA OS");
        ("inputSchema", JObj
           [("type", JStr "object");
            ("properties", JObj
               [("repo_list", JObj [("type", JStr "array")]);
                ("sync_options", JObj [("type", JStr "object")])])])]])].

(** [get_server_tools] *)
Definition get_server_tools (server_name : string) : list json :=
  dict_get tools_map server_name [].

Definition resources_map : list (string * list json) :=
  [("activepieces",
    [JObj
       [("uri", JStr "activepieces://workflows");
        ("name", JStr "Activepieces Workflows");
        ("description", JStr "Access to all workflows in Activepieces")];
     JObj
       [("uri", JStr "activepieces://triggers");
        ("name", JStr "Activepieces Triggers");
        ("description", JStr "Access to all triggers in Activepieces")]]);
   ("claude_flow",
    [JObj
       [("uri", JStr "claude-flow://agents");
        ("name", JStr "Claude Flow Agents");
        ("description", JStr "Access to all AI agents in Claude Flow")];
     JObj
       [("uri", JStr "claude-flow://conversations");
        ("name", JStr "Claude Flow Conversations");
        ("description", JStr "Access to conversation history")]]);
   ("iza_os_core",
    [JObj
       [("uri", JStr "iza-os://config");
        ("name", JStr "IZA OS Configuration");
        ("description", JStr "Access to system configuration")];
     JObj
       [("uri", JStr "iza-os://registry");
        ("name", JStr "IZA OS Registry");
        ("description", JStr "Access to component registry")]]);
   ("github_integration",
    [JObj
       [("uri", JStr "github://repositories");
        ("name", JStr "GitHub Repositories");
        ("description", JStr "Access to repository data")];
     JObj
       [("uri", JStr "github://analysis");
        ("name", JStr "Repository Analysis");
        ("description", JStr "Access to analysis results")]])].

(** [get_server_resources] *)
Definition get_server_resources (server_name : string) : list json :=
  dict_get resources_map server_name [].

Definition prompts_map : list (string * list json) :=
  [("activepieces",
    [JObj
       [("name", JStr "workflow_optimizer");
        ("description", JStr "Optimize workflow performance");
        ("arguments", JList
           [JObj
              [("name", JStr "workflow_id");
               ("description", JStr "ID of the workflow to optimize")]])]]);
   ("claude_flow",
    [JObj
       [("name", JStr "agent_coordinator");
        ("description", JStr "Coordinate multiple agents for a task");
        ("arguments", JList
           [JObj
              [("name", JStr "task_description");
               ("description", JStr "Description of the task")];
            JObj
              [("name", JStr "available_agents");
               ("description", JStr "List of available agents")]])]]);
   ("iza_os_core",
    [JObj
       [("name", JStr "system_analyzer");
        ("description", JStr "Analyze system performance and health");
        ("arguments", JList
           [JObj
              [("name", JStr "analysis_scope");
               ("description", JStr "Scope of analysis")]])]]);
   ("github_integration",
    [JObj
       [("name", JStr "repository_insights");
        ("description", JStr "Generate insights about repositories");
        ("arguments", JList
           [JObj
              [("name", JStr "repo_url");
               ("description", JStr "Repository URL")];
            JObj
              [("name", JStr "insight_type");
               ("description", JStr "Type of insights to generate")]])]])].

(** [get_server_prompts] *)
Definition get_server_prompts (server_name : string) : list json :=
  dict_get prompts_map server_name [].

(** The [config] dict built for one entry of [mcp_servers]. *)
Definition server_config_document (server_name : string)
    (server_config : ServerConfig.t) : json :=
  JObj
    [("name", JStr (ServerConfig.name server_config));
     ("version", JStr "1.0.0");
     ("capabilities", jstrs (ServerConfig.capabilities server_config));
     ("endpoints", jstrs (ServerConfig.endpoints server_config));
     ("authentication", JObj
        [("type", JStr "api_key");
         ("required", JBool true)]);
     ("mcp_protocol", JObj
        [("version", JStr "2024-11-05");
         ("transport", JStr "stdio");
         ("capabilities", JObj
            [("tools", JBool true);
             ("resources", JBool true);
             ("prompts", JBool true);
             ("logging", JBool true)])]);
     ("tools", JList (get_server_tools server_name));
     ("resources", JList (get_server_resources server_name));
     ("prompts", JList (get_server_prompts server_name))].

Definition server_config_path (base : string) (server_name : string) : string :=
  base /: "mcp-configs" /: (server_name +:+ "_mcp_config.json").

(** [create_mcp_server_configs] *)
Definition create_mcp_server_configs : Py unit :=
  o ← get_self;
  for_each (mcp_servers o) (fun item =>
    let server_name := fst item in
    let server_config := snd item in
    let config := server_config_document server_name server_config in
    let config_path := server_config_path (base_path o) server_name in
    mkdir (Path.parent config_path);;
    json_dump_to config_path config;;
    print ("✅ Created MCP config for " +:+ server_name +:+ ": " +:+ config_path)).

Definition deployment_analysis : json :=
  JObj
    [("vercel", JObj
        [("pros", jstrs
            ["Excellent Next.js support (perfect for React apps)";
             "Serverless functions with zero config";
             "Edge functions for global performance";
             "Built-in analytics and monitoring";
             "GitHub integration with automatic deployments";
             "Preview deployments for every PR";
             "Excellent developer experience";
             "Support for monorepos";
             "Built-in image optimization";
             "Edge caching and CDN"]);
         ("cons", jstrs
            ["More expensive for high-traffic applications";
             "Vendor lock-in to Vercel ecosystem";
             "Limited database options";
             "Cold starts for serverless functions";
             "Less control over infrastructure"]);
         ("best_for", jstrs
            ["React/Next.js applications";
             "JAMstack applications";
             "Static sites with dynamic features";
             "API routes and serverless functions";
             "Developer-focused projects"]);
         ("pricing", JObj
            [("hobby", JStr "Free (with limits)");
             ("pro", JStr "$20/month per team member");
             ("enterprise", JStr "Custom pricing")])]);
     ("netlify", JObj
        [("pros", jstrs
            ["Excellent for static sites and JAMstack";
             "Built-in form handling";
             "Split testing capabilities";
             "Edge functions (Netlify Functions)";
             "Git integration with automatic deployments";
             "Preview deployments";
             "Built-in CDN";
             "Good free tier";
             "Easy custom domain setup";
             "Built-in analytics"]);
         ("cons", jstrs
            ["Less support for complex server-side applications";
             "Limited database integration";
             "Less flexible than Vercel for full-stack apps";
             "Cold starts for functions";
             "Less advanced than Vercel for React apps"]);
         ("best_for", jstrs
            ["Static sites and JAMstack";
             "Documentation sites";
             "Marketing websites";
             "Simple web applications";
             "Form-based applications"]);
         ("pricing", JObj
            [("starter", JStr "Free (with limits)");
             ("pro", JStr "$19/month per team member");
             ("business", JStr "$99/month per team member");
             ("enterprise", JStr "Custom pricing")])]);
     ("recommendation", JObj
        [("primary", JStr "Vercel");
         ("reasoning", jstrs
            ["Your ecosystem is heavily React/Next.js focused";
             "IZA OS and Claude Flow likely use React components";
             "Better support for complex applications";
             "Superior developer experience";
             "Better integration with modern tooling";
             "More suitable for AI/ML applications"]);
         ("fallback", JStr "Netlify");
         ("fallback_reasoning", jstrs
            ["Good alternative for simpler deployments";
             "Better pricing for basic use cases";
             "Excellent for documentation and marketing sites"])])].

(** [create_deployment_analysis] *)
Definition create_deployment_analysis : Py json :=
  o ← get_self;
  let analysis_path := base_path o /: "deployment_analysis.json" in
  json_dump_to analysis_path deployment_analysis;;
  print ("📊 Created deployment analysis: " +:+ analysis_path);;
  mret deployment_analysis.

Definition connection_document (conn : MCPConnection.t) : json :=
  JObj
    [("name", JStr (MCPConnection.name conn));
     ("source", JStr (MCPConnection.source conn));
     ("target", JStr (MCPConnection.target conn));
     ("protocol", JStr (MCPConnection.protocol conn));
     ("endpoints", jstrs (MCPConnection.endpoints conn));
     ("authentication", JStr (MCPConnection.authentication conn));
     ("capabilities", jstrs (MCPConnection.capabilities conn));
     ("status", JStr (MCPConnection.status conn))].

Definition pattern_document (pattern : MCPPattern.t) : json :=
  JObj
    [("name", JStr (MCPPattern.name pattern));
     ("description", JStr (MCPPattern.description pattern));
     ("source_components", jstrs (MCPPattern.source_components pattern));
     ("target_components", jstrs (MCPPattern.target_components pattern));
     ("data_flow", JStr (MCPPattern.data_flow pattern));
     ("trigger_events", jstrs (MCPPattern.trigger_events pattern));
     ("response_handling", JStr (MCPPattern.response_handling pattern))].

(** The [manifest] dict; [created_at] is the clock reading. *)
Definition manifest_document (created_at : string) (o : Integrator) : json :=
  JObj
    [("mcp_ecosystem", JObj
        [("name", JStr "Worldwidebro MCP Ecosystem");
         ("version", JStr "1.0.0");
         ("created_at", JStr created_at);
         ("total_connections", JInt (Z.of_nat (length (mcp_connections o))));
         ("total_patterns", JInt (Z.of_nat (length (mcp_patterns o))));
         ("servers", jstrs (map fst (mcp_servers o)))]);
     ("connections", JList (map connection_document (mcp_connections o)));
     ("patterns", JList (map pattern_document (mcp_patterns o)));
     ("deployment", JObj
        [("recommended_platform", JStr "Vercel");
         ("reasoning", JStr
            "Better support for React/Next.js applications and AI/ML workflows");
         ("alternative", JStr "Netlify");
         ("configuration_files", jstrs
            ["vercel.json"; "netlify.toml"; "package.json"; "next.config.js"])])].

(** [create_mcp_integration_manifest] *)
Definition create_mcp_integration_manifest : Py unit :=
  o ← get_self;
  created_at ← datetime_now_isoformat;
  let manifest := manifest_document created_at o in
  let manifest_path := base_path o /: "mcp_ecosystem_manifest.json" in
  json_dump_to manifest_path manifest;;
  print ("📋 Created MCP ecosystem manifest: " +:+ manifest_path).

Definition vercel_config : json :=
  JObj
    [("version", JInt 2);
     ("builds", JList
        [JObj
           [("src", JStr "iza-os-integrated/50-apps/*/package.json");
            ("use", JStr "@vercel/next")];
         JObj
           [("src", JStr "worldwidebro-repositories/activepieces/packages/server/api/package.json");
            ("use", JStr "@vercel/node")]]);
     ("routes", JList
        [JObj
           [("src", JStr "/api/iza-os/(.*)");
            ("dest", JStr "/iza-os-integrated/00-meta/api/$1")];
         JObj
           [("src", JStr "/api/activepieces/(.*)");
            ("dest", JStr "/worldwidebro-repositories/activepieces/packages/server/api/$1")];
         JObj
           [("src", JStr "/api/claude-flow/(.*)");
            ("dest", JStr "/iza-os-integrated/30-models/claude-flow/api/$1")];
         JObj
           [("src", JStr "/api/github/(.*)");
            ("dest", JStr "/worldwidebro-integration/api/$1")]]);
     ("env", JObj
        [("MCP_SERVER_URL", JStr "https://your-domain.vercel.app");
         ("ACTIVEPIECES_API_KEY", JStr "@activepieces_api_key");
         ("GITHUB_TOKEN", JStr "@github_token");
         ("ANTHROPIC_API_KEY", JStr "@anthropic_api_key")]);
     ("functions", JObj
        [("iza-os-integrated/00-meta/api/*.js", JObj [("maxDuration", JInt 30)]);
         ("worldwidebro-repositories/activepieces/packages/server/api/*.js", JObj [("maxDuration", JInt 60)])])].

(** [create_vercel_config] *)
Definition create_vercel_config : Py unit :=
  o ← get_self;
  let config_path := base_path o /: "vercel.json" in
  json_dump_to config_path vercel_config;;
  print ("⚙️ Created Vercel configuration: " +:+ config_path).

(** The lines of the [netlify_config] text, each ended by a line break. *)
Definition netlify_config_lines : list string :=
  ["[build]";
   "  publish = " +:+ q "dist";
   "  command = " +:+ q "npm run build";
   "";
   "[build.environment]";
   "  NODE_VERSION = " +:+ q "18";
   "  MCP_SERVER_URL = " +:+ q "https://your-domain.netlify.app";
   "";
   "[[redirects]]";
   "  from = " +:+ q "/api/iza-os/*";
   "  to = " +:+ q "/iza-os-integrated/00-meta/api/:splat";
   "  status = 200";
   "";
   "[[redirects]]";
   "  from = " +:+ q "/api/activepieces/*";
   "  to = " +:+ q "/worldwidebro-repositories/activepieces/packages/server/api/:splat";
   "  status = 200";
   "";
   "[[redirects]]";
   "  from = " +:+ q "/api/claude-flow/*";
   "  to = " +:+ q "/iza-os-integrated/30-models/claude-flow/api/:splat";
   "  status = 200";
   "";
   "[[redirects]]";
   "  from = " +:+ q "/api/github/*";
   "  to = " +:+ q "/worldwidebro-integration/api/:splat";
   "  status = 200";
   "";
   "[functions]";
   "  directory = " +:+ q "netlify/functions";
   "  node_bundler = " +:+ q "esbuild";
   "";
   "[[headers]]";
   "  for = " +:+ q "/api/*";
   "  [headers.values]";
   "    Access-Control-Allow-Origin = " +:+ q "*";
   "    Access-Control-Allow-Headers = " +:+ q "Content-Type, Authorization";
   "    Access-Control-Allow-Methods = " +:+ q "GET, POST, PUT, DELETE, OPTIONS"].

Definition netlify_config : string :=
  String.concat "" (map (fun l => l +:+ newline) netlify_config_lines).

(** [create_netlify_config] *)
Definition create_netlify_config : Py unit :=
  o ← get_self;
  let config_path := base_path o /: "netlify.toml" in
  write_file config_path netlify_config;;
  print ("⚙️ Created Netlify configuration: " +:+ config_path).

(** [', '.join(v)] for a document [v] that is a list of [str]. *)
Fixpoint strs_of (items : list json) : option (list string) :=
  match items with
  | [] => Some []
  | JStr s :: rest => match strs_of rest with Some l => Some (s :: l) | None => None end
  | _ :: _ => None
  end.

Definition join_document (sep : string) (v : json) : Py string :=
  match v with
  | JList items =>
      match strs_of items with
      | Some l => mret (join sep l)
      | None => raise TypeError
      end
  | _ => raise TypeError
  end.

(** A document inside an f-string: a [str] stands as it is. The program
    formats only [str] values this way; for the others Python's [repr] is
    not modelled and the JSON text stands in. *)
Definition format_document (v : json) : string :=
  match v with
  | JStr s => s
  | _ => Json.dumps v
  end.

(** [run_integration] *)
Definition run_integration : Py unit :=
  print "🔗 Starting MCP Ecosystem Integration...";;
  create_mcp_connections;;
  create_mcp_patterns;;
  create_mcp_server_configs;;
  deployment_analysis ← create_deployment_analysis;
  create_mcp_integration_manifest;;
  create_vercel_config;;
  create_netlify_config;;
  o ← get_self;
  print (newline +:+ "🎉 MCP Ecosystem Integration Complete!");;
  print ("📊 MCP Connections: " +:+ str_of_nat (length (mcp_connections o)));;
  print ("🔄 MCP Patterns: " +:+ str_of_nat (length (mcp_patterns o)));;
  print ("🖥️ MCP Servers: " +:+ str_of_nat (length (mcp_servers o)));;
  print (newline +:+ "🚀 Deployment Recommendation:");;
  recommendation ← getitem "recommendation" deployment_analysis;
  primary ← getitem "primary" recommendation;
  print ("   Primary: " +:+ format_document primary);;
  recommendation ← getitem "recommendation" deployment_analysis;
  reasoning ← getitem "reasoning" recommendation;
  reasons ← join_document ", " reasoning;
  print ("   Reasoning: " +:+ reasons);;
  recommendation ← getitem "recommendation" deployment_analysis;
  fallback ← getitem "fallback" recommendation;
  print ("   Alternative: " +:+ format_document fallback);;
  print (newline +:+ "📁 Files Created:");;
  print "   - mcp_ecosystem_manifest.json (complete integration manifest)";;
  print "   - deployment_analysis.json (Vercel vs Netlify analysis)";;
  print "   - vercel.json (Vercel configuration)";;
  print "   - netlify.toml (Netlify configuration)";;
  print "   - mcp-configs/ (MCP server configurations)";;
  print (newline +:+ "🔗 Key MCP Connections:");;
  for_each (mcp_connections o) (fun conn =>
    print ("   - " +:+ MCPConnection.name conn +:+ ": "
           +:+ MCPConnection.source conn +:+ " → " +:+ MCPConnection.target conn));;
  print (newline +:+ "🔄 Key MCP Patterns:");;
  for_each (mcp_patterns o) (fun pattern =>
    print ("   - " +:+ MCPPattern.name pattern +:+ ": "
           +:+ MCPPattern.data_flow pattern)).

(** The machine [main] starts from: a fresh integrator on the default base
    path, the file system as found, nothing printed yet. *)
Definition fresh (base : string) (fs : gmap string string) : Machine :=
  {| self := __init__ base; files := fs; sink_calls := []; stdout := [] |}.

(** [main] *)
Definition main (env : Env) (fs : gmap string string) : outcome unit * Machine :=
  run_integration env (fresh default_base_path fs).

End MCPEcosystemIntegrator.

(** ** A run as a script of file-system calls and printed lines

    What [run_integration] does after it has stored the connection and
    pattern lists is a fixed sequence of [mkdir], [open]-and-write and
    [print] steps; [script] is that sequence and [exec] performs one. *)

Inductive Step : Type :=
  | DoMkdir (p : string)
  | DoWrite (p content : string)
  | DoPrint (line : string).

Definition step (s : Step) : Py unit :=
  match s with
  | DoMkdir p => mkdir p
  | DoWrite p content => write_file p content
  | DoPrint line => print line
  end.

Definition exec (ss : list Step) : Py unit := for_each ss step.

(** The file-system call a step makes, if any. *)
Definition sink_op (s : Step) : option SinkOp :=
  match s with
  | DoMkdir p => Some (Mkdir p)
  | DoWrite p _ => Some (Open p)
  | DoPrint _ => None
  end.

Definition step_permitted (env : Env) (s : Step) : bool :=
  match sink_op s with
  | Some op => permits env op
  | None => true
  end.

(** The state after a step that was let through. *)
Definition apply_step (s : Step) (m : Machine) : Machine :=
  match s with
  | DoMkdir p =>
      {| self := self m; files := files m;
         sink_calls := sink_calls m ++ [Mkdir p]; stdout := stdout m |}
  | DoWrite p content =>
      {| self := self m; files := <[p := content]> (files m);
         sink_calls := sink_calls m ++ [Open p]; stdout := stdout m |}
  | DoPrint line =>
      {| self := self m; files := files m;
         sink_calls := sink_calls m; stdout := stdout m ++ [line] |}
  end.

Definition apply_steps (ss : list Step) (m : Machine) : Machine :=
  foldl (fun m s => apply_step s m) m ss.

(** The state after printing [lines]. *)
Definition print_lines (lines : list string) (m : Machine) : Machine :=
  foldl (fun m line => apply_step (DoPrint line) m) m lines.

(** The state after a step that was refused: the call is on record, nothing
    else has changed. *)
Definition refuse_step (s : Step) (m : Machine) : Machine :=
  match sink_op s with
  | Some op =>
      {| self := self m; files := files m;
         sink_calls := sink_calls m ++ [op]; stdout := stdout m |}
  | None => m
  end.

Definition step_path (s : Step) : string :=
  match s with
  | DoMkdir p => p
  | DoWrite p _ => p
  | DoPrint _ => ""
  end.

(** The lines a script prints, in order. *)
Definition printed_lines (ss : list Step) : list string :=
  omap (fun s => match s with DoPrint line => Some line | _ => None end) ss.

(** The steps up to the first one the file system refuses, and that step. *)
Fixpoint first_refused (env : Env) (ss : list Step) : option (list Step * Step) :=
  match ss with
  | [] => None
  | s :: rest =>
      if step_permitted env s
      then match first_refused env rest with
           | Some (done, r) => Some (s :: done, r)
           | None => None
           end
      else Some ([], s)
  end.

(** The content the last [DoWrite] to [p] leaves there. *)
Fixpoint last_write (p : string) (ss : list Step) : option string :=
  match ss with
  | [] => None
  | s :: rest =>
      match last_write p rest with
      | Some c => Some c
      | None =>
          match s with
          | DoWrite p' c => if decide (p' = p) then Some c else None
          | _ => None
          end
      end
  end.

(** The paths a script writes, in order. *)
Fixpoint written_paths (ss : list Step) : list string :=
  match ss with
  | [] => []
  | DoWrite p _ :: rest => p :: written_paths rest
  | _ :: rest => written_paths rest
  end.

Module Script.
Import MCPEcosystemIntegrator.

(** The integrator once [create_mcp_connections] and [create_mcp_patterns]
    have run. *)
Definition loaded (o : Integrator) : Integrator :=
  {| base_path := base_path o; mcp_connections := connection_list;
     mcp_patterns := pattern_list; activepieces_path := activepieces_path o;
     iza_os_path := iza_os_path o; mcp_servers := mcp_servers o |}.

(** The machine with the two lists stored. *)
Definition load (m : Machine) : Machine :=
  {| self := loaded (self m); files := files m;
     sink_calls := sink_calls m; stdout := stdout m |}.

Definition server_steps (base : string) (item : string * ServerConfig.t)
  : list Step :=
  let config_path := server_config_path base (fst item) in
  [DoMkdir (Path.parent config_path);
   DoWrite config_path
     (Json.dumps_indent 2 (server_config_document (fst item) (snd item)));
   DoPrint ("✅ Created MCP config for " +:+ fst item +:+ ": " +:+ config_path)].

Definition config_steps (o : Integrator) : list Step :=
  concat (map (server_steps (base_path o)) (mcp_servers o)).

Definition analysis_path (o : Integrator) : string :=
  base_path o /: "deployment_analysis.json".
Definition manifest_path (o : Integrator) : string :=
  base_path o /: "mcp_ecosystem_manifest.json".
Definition vercel_path (o : Integrator) : string := base_path o /: "vercel.json".
Definition netlify_path (o : Integrator) : string := base_path o /: "netlify.toml".

Definition analysis_steps (o : Integrator) : list Step :=
  [DoWrite (analysis_path o) (Json.dumps_indent 2 deployment_analysis);
   DoPrint ("📊 Created deployment analysis: " +:+ analysis_path o)].

Definition manifest_steps (now : string) (o : Integrator) : list Step :=
  [DoWrite (manifest_path o) (Json.dumps_indent 2 (manifest_document now o));
   DoPrint ("📋 Created MCP ecosystem manifest: " +:+ manifest_path o)].

Definition vercel_steps (o : Integrator) : list Step :=
  [DoWrite (vercel_path o) (Json.dumps_indent 2 vercel_config);
   DoPrint ("⚙️ Created Vercel configuration: " +:+ vercel_path o)].

Definition netlify_steps (o : Integrator) : list Step :=
  [DoWrite (netlify_path o) netlify_config;
   DoPrint ("⚙️ Created Netlify configuration: " +:+ netlify_path o)].

(** The steps that produce the artifacts, for an integrator [o] that holds
    its lists; [now] is the clock reading. *)
Definition artifact_steps (now : string) (o : Integrator) : list Step :=
  config_steps o ++ analysis_steps o ++ manifest_steps now o
  ++ vercel_steps o ++ netlify_steps o.

(** The closing summary: it is printed only when every artifact step has
    gone through. *)
Definition summary_lines (o : Integrator) : list string :=
  [newline +:+ "🎉 MCP Ecosystem Integration Complete!";
   "📊 MCP Connections: " +:+ str_of_nat (length (mcp_connections o));
   "🔄 MCP Patterns: " +:+ str_of_nat (length (mcp_patterns o));
   "🖥️ MCP Servers: " +:+ str_of_nat (length (mcp_servers o));
   newline +:+ "🚀 Deployment Recommendation:";
   "   Primary: Vercel";
   "   Reasoning: " +:+ join ", "
      ["Your ecosystem is heavily React/Next.js focused";
       "IZA OS and Claude Flow likely use React components";
       "Better support for complex applications";
       "Superior developer experience";
       "Better integration with modern tooling";
       "More suitable for AI/ML applications"];
   "   Alternative: Netlify";
   newline +:+ "📁 Files Created:";
   "   - mcp_ecosystem_manifest.json (complete integration manifest)";
   "   - deployment_analysis.json (Vercel vs Netlify analysis)";
   "   - vercel.json (Vercel configuration)";
   "   - netlify.toml (Netlify configuration)";
   "   - mcp-configs/ (MCP server configurations)";
   newline +:+ "🔗 Key MCP Connections:"]
  ++ map (fun conn => "   - " +:+ MCPConnection.name conn +:+ ": "
                      +:+ MCPConnection.source conn +:+ " → "
                      +:+ MCPConnection.target conn) (mcp_connections o)
  ++ [newline +:+ "🔄 Key MCP Patterns:"]
  ++ map (fun pattern => "   - " +:+ MCPPattern.name pattern +:+ ": "
                         +:+ MCPPattern.data_flow pattern) (mcp_patterns o).

Definition start_line : string := "🔗 Starting MCP Ecosystem Integration...".

Definition script (now : string) (o : Integrator) : list Step :=
  DoPrint start_line :: artifact_steps now o ++ map DoPrint (summary_lines o).

End Script.

(** ** The checks the specification asks for, as predicates on the model *)

Module Checks.

(** [id] is a key of [mcp_servers]. *)
Definition registered (o : Integrator) (id : string) : bool :=
  dict_has (mcp_servers o) id.

(** The endpoints the registry entry of [id] declares; none when [id] is
    not registered. *)
Definition declared_endpoints (o : Integrator) (id : string) : list string :=
  match dict_lookup (mcp_servers o) id with
  | Some server_config => ServerConfig.endpoints server_config
  | None => []
  end.

(** Source and target of [conn] are registered. *)
Definition resolves (o : Integrator) (conn : MCPConnection.t) : bool :=
  registered o (MCPConnection.source conn)
  && registered o (MCPConnection.target conn).

(** Every endpoint of [conn] is declared by its source or by its target. *)
Definition endpoints_declared (o : Integrator) (conn : MCPConnection.t) : bool :=
  forallb
    (fun e => bool_decide
                (e ∈ declared_endpoints o (MCPConnection.source conn)
                     ++ declared_endpoints o (MCPConnection.target conn)))
    (MCPConnection.endpoints conn).

Definition data_flow_tokens (p : MCPPattern.t) : list string :=
  split " -> " (MCPPattern.data_flow p).

(** At least two tokens, each a registered id, the first a source
    component and the last a target component. *)
Definition data_flow_well_formed (o : Integrator) (p : MCPPattern.t) : bool :=
  let tokens := data_flow_tokens p in
  (2 <=? length tokens)%nat
  && forallb (registered o) tokens
  && match head tokens, last tokens with
     | Some a, Some b =>
         bool_decide (a ∈ MCPPattern.source_components p)
         && bool_decide (b ∈ MCPPattern.target_components p)
     | _, _ => false
     end.

End Checks.

(** ** Reading the route rules back from the two platform descriptors *)

Module Routes.

(** One rule: the request pattern and the path it is served from. *)
Definition rule : Type := string * string.

Definition vercel_rule (v : json) : option rule :=
  match Json.get "src" v, Json.get "dest" v with
  | Some (JStr src), Some (JStr dest) => Some (src, dest)
  | _, _ => None
  end.

(** The [routes] of a [vercel.json] document. *)
Definition vercel_routes (doc : json) : list rule :=
  match Json.get "routes" doc with
  | Some (JList rs) => omap vercel_rule rs
  | _ => []
  end.

Definition drop_last_char (s : string) : string :=
  String.rev (drop_chars 1 (String.rev s)).

(** The value of a line [  key = "value"] of a TOML table. *)
Definition toml_string_value (key line : string) : option string :=
  let pre := "  " +:+ key +:+ " = " +:+ String dquote "" in
  if startswith pre line
  then Some (drop_last_char (drop_chars (String.length pre) line))
  else None.

(** The [from]/[to] pairs of the [[redirects]] tables. *)
Fixpoint redirects_of_lines (lines : list string) : list rule :=
  match lines with
  | [] => []
  | l :: rest =>
      match toml_string_value "from" l, rest with
      | Some from, l' :: _ =>
          match toml_string_value "to" l' with
          | Some to => (from, to) :: redirects_of_lines rest
          | None => redirects_of_lines rest
          end
      | _, _ => redirects_of_lines rest
      end
  end.

(** The redirects of a [netlify.toml] text. *)
Definition netlify_redirects (text : string) : list rule :=
  redirects_of_lines (split newline text).

(** The logical prefix of the routes of server [id]. *)
Definition prefix_of (id : string) : string := "/api/" +:+ id +:+ "/".

(** The declared location of a server, relative to the base path. *)
Definition location (o : Integrator) (server_config : ServerConfig.t) : string :=
  drop_chars (String.length (base_path o)) (ServerConfig.path server_config).

(** [r] routes the prefix of [id] to a path under [loc]. *)
Definition serves (id loc : string) (r : rule) : bool :=
  startswith (prefix_of id) (fst r) && startswith loc (snd r).

(** Every registered server has a rule among [rules]. *)
Definition covers_registry (o : Integrator) (rules : list rule) : bool :=
  forallb (fun item => existsb (serves (fst item) (location o (snd item))) rules)
          (mcp_servers o).

(** The name each of the four rules uses in its prefix, with the registry
    id of the server whose location the rule maps to. *)
Definition prefix_names : list (string * string) :=
  [("iza-os", "iza_os_core");
   ("activepieces", "activepieces");
   ("claude-flow", "claude_flow");
   ("github", "github_integration")].

(** Among [rules], one routes the prefix of [name] to a path under the
    declared location of the server registered as [id]. *)
Definition served_under (o : Integrator) (name id : string) (rules : list rule)
  : bool :=
  match dict_lookup (mcp_servers o) id with
  | Some server_config => existsb (serves name (location o server_config)) rules
  | None => false
  end.

End Routes.

(** ** Environments used to run the model on concrete inputs *)

(** Every call on the file system goes through. *)
Definition permissive (now : string) : Env :=
  {| now_isoformat := now; permits := fun _ => true |}.

(** Opening [p] for writing is refused, every other call goes through. *)
Definition refusing (now p : string) : Env :=
  {| now_isoformat := now;
     permits := fun op => match op with
                          | Open p' => negb (bool_decide (p' = p))
                          | Mkdir _ => true
                          end |}.


(** ** Inputs the checks are tried on *)

(** The clock reading used in the examples. *)
Definition noon : string := "2026-01-01T12:00:00".

(** A connection whose source was never registered. *)
Definition ghost_connection : MCPConnection.t :=
  MCPConnection.new "Ghost to IZA OS" "ghost" "iza_os_core" "mcp"
    ["/api/v1/config"] "api_key" ["system_configuration"].

(** A connection between two registered servers that lists an endpoint
    neither of them declares. *)
Definition stray_endpoint_connection : MCPConnection.t :=
  MCPConnection.new "Activepieces to IZA OS" "activepieces" "iza_os_core" "mcp"
    ["/api/v1/flows"; "/api/v1/unknown"] "api_key" ["workflow_orchestration"].

(** A machine left by an earlier run: the integrator holds a stale
    connection list, the manifest file holds stale content, and a line is
    on the console. *)
Definition stale_machine : Machine :=
  let o := MCPEcosystemIntegrator.__init__
             MCPEcosystemIntegrator.default_base_path in
  {| self := {| base_path := base_path o;
                mcp_connections := [ghost_connection];
                mcp_patterns := [];
                activepieces_path := activepieces_path o;
                iza_os_path := iza_os_path o;
                mcp_servers := mcp_servers o |};
     files := {[ Script.manifest_path o := "stale" ]};
     sink_calls := [];
     stdout := ["earlier run"] |}.
(** ** Further notions used to describe whole runs *)

(** The contents a script writes, in order. *)
Fixpoint written_contents (ss : list Step) : list string :=
  match ss with
  | [] => []
  | DoWrite _ c :: rest => c :: written_contents rest
  | _ :: rest => written_contents rest
  end.

(** Printable ASCII or a line break. *)
Definition is_ascii_char (c : ascii) : bool :=
  let n := nat_of_ascii c in
  ((32 <=? n) && (n <=? 126) || (n =? 10))%nat.

Fixpoint is_ascii_text (s : string) : bool :=
  match s with
  | "" => true
  | String c s' => is_ascii_char c && is_ascii_text s'
  end.

(** The path a call on the file system is about. *)
Definition op_path (op : SinkOp) : string :=
  match op with
  | Mkdir p => p
  | Open p => p
  end.

Module Trace.
Import MCPEcosystemIntegrator.

(** The line that announces a completed run. *)
Definition banner : string := newline +:+ "🎉 MCP Ecosystem Integration Complete!".

(** The calls a run makes on the file system when none is refused. *)
Definition full_calls (o : Integrator) : list SinkOp :=
  concat (map (fun item =>
                 let config_path := server_config_path (base_path o) (fst item) in
                 [Mkdir (Path.parent config_path); Open config_path])
              (mcp_servers o))
  ++ [Open (Script.analysis_path o); Open (Script.manifest_path o);
      Open (Script.vercel_path o); Open (Script.netlify_path o)].

(** The files a run writes: one config per registered server, then the
    deployment analysis, the manifest and the two descriptors. *)
Definition artifact_paths (o : Integrator) : list string :=
  map (fun item => server_config_path (base_path o) (fst item)) (mcp_servers o)
  ++ [Script.analysis_path o; Script.manifest_path o;
      Script.vercel_path o; Script.netlify_path o].

(** The same files, with each path built as [pathlib] builds it. *)
Definition pathlib_artifact_paths (o : Integrator) : list string :=
  map (fun item =>
         Pathlib.div (Pathlib.div (base_path o) "mcp-configs")
                     (fst item +:+ "_mcp_config.json"))
      (mcp_servers o)
  ++ [Pathlib.div (base_path o) "deployment_analysis.json";
      Pathlib.div (base_path o) "mcp_ecosystem_manifest.json";
      Pathlib.div (base_path o) "vercel.json";
      Pathlib.div (base_path o) "netlify.toml"].

(** The base path is normalised and every registered id is a plain name:
    the integrators for which the text of each artifact path is the text
    [pathlib] gives it. *)
Definition plain_paths (o : Integrator) : bool :=
  Path.normal (base_path o) && forallb Path.plain_name (map fst (mcp_servers o)).

(** The ids the three lookup tables of tools, resources and prompts hold. *)
Definition table_ids : list string :=
  ["activepieces"; "claude_flow"; "iza_os_core"; "github_integration"].

End Trace.

(** * Properties *)

(** ** How a script runs *)

Lemma exec_cons (env : Env) s ss m :
  exec (s :: ss) env m =
  match step s env m with
  | (Returned _, m') => exec ss env m'
  | (Raised e, m') => (Raised e, m')
  end.
Proof. reflexivity. Qed.

Lemma exec_print_cons (env : Env) line ss m :
  exec (DoPrint line :: ss) env m = exec ss env (apply_step (DoPrint line) m).
Proof. reflexivity. Qed.

(** A step that is let through has its effect and returns. *)
Lemma step_permitted_run (env : Env) s m :
  step_permitted env s = true -> step s env m = (Returned tt, apply_step s m).
Proof.
  destruct s as [p|p c|l]; unfold step_permitted; simpl; intros H;
    unfold mkdir, write_file, print; rewrite ?H; reflexivity.
Qed.

(** A step that is refused raises [OSError] on its path. *)
Lemma step_refused_run (env : Env) s m :
  step_permitted env s = false ->
  step s env m = (Raised (OSError (step_path s)), refuse_step s m).
Proof.
  destruct s as [p|p c|l]; unfold step_permitted, refuse_step; simpl; intros H;
    unfold mkdir, write_file; rewrite ?H; try reflexivity; discriminate.
Qed.

Lemma exec_app (env : Env) ss1 ss2 m :
  exec (ss1 ++ ss2) env m =
  match exec ss1 env m with
  | (Returned _, m') => exec ss2 env m'
  | (Raised e, m') => (Raised e, m')
  end.
Proof.
  revert m. induction ss1 as [|s ss1 IH]; intros m; [reflexivity|].
  rewrite <- app_comm_cons, !exec_cons.
  destruct (step s env m) as [[[]|e] m']; [apply IH | reflexivity].
Qed.

(** No step touches the integrator object. *)
Lemma step_self (env : Env) s m : self (step s env m).2 = self m.
Proof.
  destruct s as [p|p c|l]; simpl; unfold mkdir, write_file, print;
    try destruct (permits env _); reflexivity.
Qed.

Lemma exec_self (env : Env) ss m : self (exec ss env m).2 = self m.
Proof.
  revert m. induction ss as [|s ss IH]; intros m; [reflexivity|].
  rewrite exec_cons. pose proof (step_self env s m) as Hs.
  destruct (step s env m) as [[[]|e] m']; simpl in Hs; [by rewrite IH | done].
Qed.

(** A computation that is a script, followed by more. *)
Lemma bind_exec (env : Env) {B} (c : Py unit) (k : unit -> Py B) ss m :
  c env m = exec ss env m ->
  (c ≫= k) env m =
  match exec ss env m with
  | (Returned _, m') => k tt env m'
  | (Raised e, m') => (Raised e, m')
  end.
Proof.
  intros H. unfold mbind, Py_bind. rewrite H.
  destruct (exec ss env m) as [[[]|e] m']; reflexivity.
Qed.

(** ** The methods of the integrator as scripts *)

Lemma for_each_concat (env : Env) {A} (xs : list A) (body : A -> Py unit)
    (f : A -> list Step) m :
  (forall x m, body x env m = exec (f x) env m) ->
  for_each xs body env m = exec (concat (map f xs)) env m.
Proof.
  intros Hbody. revert m. induction xs as [|x xs IH]; intros m; [reflexivity|].
  simpl. rewrite exec_app. unfold mbind, Py_bind. rewrite Hbody.
  destruct (exec (f x) env m) as [[[]|e] m']; [apply IH | reflexivity].
Qed.

Lemma create_mcp_server_configs_exec (env : Env) m :
  MCPEcosystemIntegrator.create_mcp_server_configs env m =
  exec (Script.config_steps (self m)) env m.
Proof.
  unfold MCPEcosystemIntegrator.create_mcp_server_configs, Script.config_steps.
  unfold mbind at 1, Py_bind at 1, get_self.
  apply for_each_concat. intros item m0.
  unfold Script.server_steps, exec, for_each, step, json_dump_to, mbind, Py_bind,
    mret, Py_ret, mkdir.
  destruct (permits env (Mkdir _)); [|reflexivity].
  unfold write_file. destruct (permits env (Open _)); reflexivity.
Qed.

Lemma create_deployment_analysis_exec (env : Env) {B} (k : json -> Py B) m :
  (MCPEcosystemIntegrator.create_deployment_analysis ≫= k) env m =
  match exec (Script.analysis_steps (self m)) env m with
  | (Returned _, m') => k MCPEcosystemIntegrator.deployment_analysis env m'
  | (Raised e, m') => (Raised e, m')
  end.
Proof.
  unfold MCPEcosystemIntegrator.create_deployment_analysis, Script.analysis_steps,
    Script.analysis_path, exec, for_each, step, json_dump_to, mbind, Py_bind,
    mret, Py_ret, get_self, write_file.
  destruct (permits env (Open _)); reflexivity.
Qed.

Lemma create_mcp_integration_manifest_exec (env : Env) m :
  MCPEcosystemIntegrator.create_mcp_integration_manifest env m =
  exec (Script.manifest_steps (now_isoformat env) (self m)) env m.
Proof.
  unfold MCPEcosystemIntegrator.create_mcp_integration_manifest,
    Script.manifest_steps, Script.manifest_path, exec, for_each, step,
    json_dump_to, mbind, Py_bind, mret, Py_ret, get_self,
    datetime_now_isoformat, write_file.
  destruct (permits env (Open _)); reflexivity.
Qed.

Lemma create_vercel_config_exec (env : Env) m :
  MCPEcosystemIntegrator.create_vercel_config env m =
  exec (Script.vercel_steps (self m)) env m.
Proof.
  unfold MCPEcosystemIntegrator.create_vercel_config, Script.vercel_steps,
    Script.vercel_path, exec, for_each, step, json_dump_to, mbind, Py_bind,
    mret, Py_ret, get_self, write_file.
  destruct (permits env (Open _)); reflexivity.
Qed.

Lemma create_netlify_config_exec (env : Env) m :
  MCPEcosystemIntegrator.create_netlify_config env m =
  exec (Script.netlify_steps (self m)) env m.
Proof.
  unfold MCPEcosystemIntegrator.create_netlify_config, Script.netlify_steps,
    Script.netlify_path, exec, for_each, step, mbind, Py_bind,
    mret, Py_ret, get_self, write_file.
  destruct (permits env (Open _)); reflexivity.
Qed.

(** The three steps [run_integration] starts with never fail. *)
Lemma run_prelude (env : Env) {B} (K : Py B) m :
  (print Script.start_line;;
   MCPEcosystemIntegrator.create_mcp_connections;;
   MCPEcosystemIntegrator.create_mcp_patterns;; K) env m
  = K env (apply_step (DoPrint Script.start_line) (Script.load m)).
Proof. reflexivity. Qed.

(** *** The closing summary *)

Lemma print_bind (env : Env) {B} line (k : unit -> Py B) m :
  (print line ≫= k) env m = k tt env (apply_step (DoPrint line) m).
Proof. reflexivity. Qed.

Lemma get_self_bind (env : Env) {B} (k : Integrator -> Py B) m :
  (get_self ≫= k) env m = k (self m) env m.
Proof. reflexivity. Qed.

Lemma getitem_bind (env : Env) {B} key d v (k : json -> Py B) m :
  Json.get key d = Some v -> (getitem key d ≫= k) env m = k v env m.
Proof.
  destruct d; simpl; intros H; try discriminate.
  unfold getitem, mbind, Py_bind. rewrite H. reflexivity.
Qed.

Lemma join_document_bind (env : Env) {B} sep v l (k : string -> Py B) m :
  match v with
  | JList items => MCPEcosystemIntegrator.strs_of items
  | _ => None
  end = Some l ->
  (MCPEcosystemIntegrator.join_document sep v ≫= k) env m = k (join sep l) env m.
Proof.
  intros H. unfold MCPEcosystemIntegrator.join_document, mbind, Py_bind.
  destruct v; try discriminate. rewrite H. reflexivity.
Qed.

Lemma exec_prints (env : Env) lines m :
  exec (map DoPrint lines) env m = (Returned tt, print_lines lines m).
Proof.
  revert m. induction lines as [|l lines IH]; intros m; [reflexivity|].
  cbn [map]. rewrite exec_print_cons. apply IH.
Qed.

Lemma for_each_print (env : Env) {A B} (xs : list A) (line : A -> string)
    (k : unit -> Py B) m :
  (for_each xs (fun x => print (line x)) ≫= k) env m
  = k tt env (print_lines (map line xs) m).
Proof.
  revert m. induction xs as [|x xs IH]; intros m; [reflexivity|].
  cbn [for_each map]. unfold mbind at 1 2, Py_bind at 1 2.
  unfold print at 1. apply IH.
Qed.

Lemma for_each_print_last (env : Env) {A} (xs : list A) (line : A -> string) m :
  for_each xs (fun x => print (line x)) env m
  = (Returned tt, print_lines (map line xs) m).
Proof.
  revert m. induction xs as [|x xs IH]; intros m; [reflexivity|].
  cbn [for_each map]. unfold mbind at 1, Py_bind at 1.
  unfold print at 1. apply IH.
Qed.

Lemma print_lines_app l1 l2 m :
  print_lines (l1 ++ l2) m = print_lines l2 (print_lines l1 m).
Proof. apply foldl_app. Qed.

(** Run the next block of a script whose steps are on both sides of the
    goal, and carry on from the machine it leaves. *)
Ltac exec_next env :=
  match goal with
  | |- context [exec ?ss env ?m0] =>
      let Hs := fresh "Hself" in
      let m1 := fresh "m" in
      pose proof (exec_self env ss m0) as Hs;
      destruct (exec ss env m0) as [[[]|?] m1]; [|reflexivity];
      cbn [snd] in Hs; rewrite <- Hs; clear Hs; clear m0
  end.

(** [run_integration] stores the two lists and performs its script. *)
Lemma run_integration_exec (env : Env) m :
  MCPEcosystemIntegrator.run_integration env m =
  exec (Script.script (now_isoformat env) (Script.loaded (self m))) env
       (Script.load m).
Proof.
  unfold MCPEcosystemIntegrator.run_integration, Script.script,
    Script.artifact_steps.
  change "🔗 Starting MCP Ecosystem Integration..." with Script.start_line.
  rewrite run_prelude, exec_print_cons, !exec_app.
  set (m0 := apply_step (DoPrint Script.start_line) (Script.load m)).
  change (Script.loaded (self m)) with (self m0).
  clearbody m0. clear m.
  rewrite (bind_exec env _ _ _ _ (create_mcp_server_configs_exec env m0)).
  exec_next env.
  rewrite create_deployment_analysis_exec, exec_app.
  exec_next env.
  rewrite (bind_exec env _ _ _ _ (create_mcp_integration_manifest_exec env _)),
    exec_app.
  exec_next env.
  rewrite (bind_exec env _ _ _ _ (create_vercel_config_exec env _)), exec_app.
  exec_next env.
  rewrite (bind_exec env _ _ _ _ (create_netlify_config_exec env _)).
  exec_next env.
  rewrite exec_prints. unfold Script.summary_lines.
  rewrite !print_lines_app.
  rewrite get_self_bind. cbv beta.
  repeat first
    [ rewrite print_bind
    | erewrite getitem_bind by reflexivity
    | erewrite join_document_bind by reflexivity
    | rewrite for_each_print ]; cbv beta.
  rewrite for_each_print_last. reflexivity.
Qed.

(** ** Runs that go through, and runs that are refused *)

Lemma exec_permitted (env : Env) ss m :
  forallb (step_permitted env) ss = true ->
  exec ss env m = (Returned tt, apply_steps ss m).
Proof.
  revert m. induction ss as [|s ss IH]; intros m H; [reflexivity|].
  cbn [forallb] in H. apply andb_prop in H as [Hs Hss].
  rewrite exec_cons, (step_permitted_run env s m Hs). by apply IH.
Qed.

Lemma first_refused_none (env : Env) ss :
  first_refused env ss = None -> forallb (step_permitted env) ss = true.
Proof.
  induction ss as [|s ss IH]; [reflexivity|]. cbn [first_refused forallb].
  destruct (step_permitted env s); [|discriminate].
  destruct (first_refused env ss) as [[done r]|]; [discriminate|].
  intros _. by apply IH.
Qed.

Lemma first_refused_some (env : Env) ss done r :
  first_refused env ss = Some (done, r) ->
  exists rest, ss = done ++ r :: rest
               /\ forallb (step_permitted env) done = true
               /\ step_permitted env r = false.
Proof.
  revert done. induction ss as [|s ss IH]; intros done; [discriminate|].
  cbn [first_refused]. destruct (step_permitted env s) eqn:Hs.
  - destruct (first_refused env ss) as [[done' r']|]; [|discriminate].
    intros [= <- <-]. destruct (IH done' eq_refl) as (rest & -> & Hd & Hr).
    exists rest. cbn [forallb]. by rewrite Hs, Hd.
  - intros [= <- <-]. by exists ss.
Qed.

Lemma exec_refused (env : Env) ss done r m :
  first_refused env ss = Some (done, r) ->
  exec ss env m
  = (Raised (OSError (step_path r)), refuse_step r (apply_steps done m)).
Proof.
  intros H. destruct (first_refused_some env ss done r H) as (rest & -> & Hd & Hr).
  rewrite exec_app, (exec_permitted env done m Hd), exec_cons.
  by rewrite (step_refused_run env r _ Hr).
Qed.

(** What a script that went through leaves behind. *)
Lemma apply_steps_cons s ss m :
  apply_steps (s :: ss) m = apply_steps ss (apply_step s m).
Proof. reflexivity. Qed.

Lemma apply_steps_self ss m : self (apply_steps ss m) = self m.
Proof.
  revert m. induction ss as [|s ss IH]; intros m; [reflexivity|].
  rewrite apply_steps_cons, IH. by destruct s.
Qed.

Lemma apply_steps_files ss m p :
  files (apply_steps ss m) !! p =
  match last_write p ss with
  | Some c => Some c
  | None => files m !! p
  end.
Proof.
  revert m. induction ss as [|s ss IH]; intros m; [reflexivity|].
  rewrite apply_steps_cons, IH. cbn [last_write].
  destruct (last_write p ss) as [c|]; [reflexivity|].
  destruct s as [p'|p' c|l]; cbn [apply_step files]; try reflexivity.
  destruct (decide (p' = p)) as [->|Hne].
  - apply lookup_insert_eq.
  - by apply lookup_insert_ne.
Qed.

Lemma apply_steps_sink_calls ss m :
  sink_calls (apply_steps ss m) = sink_calls m ++ omap sink_op ss.
Proof.
  revert m. induction ss as [|s ss IH]; intros m.
  - cbn. by rewrite app_nil_r.
  - rewrite apply_steps_cons, IH.
    destruct s; cbn [apply_step sink_calls omap sink_op];
      by rewrite <- ?app_assoc.
Qed.

Lemma refuse_step_files s m : files (refuse_step s m) = files m.
Proof. by destruct s. Qed.

Lemma refuse_step_sink_calls s m :
  sink_calls (refuse_step s m) = sink_calls m ++ omap sink_op [s].
Proof. destruct s; cbn; by rewrite ?app_nil_r. Qed.

Lemma last_write_written p ss :
  p ∈ written_paths ss -> is_Some (last_write p ss).
Proof.
  induction ss as [|s ss IH]; cbn [written_paths last_write].
  - intros H. by apply elem_of_nil in H.
  - intros H. destruct (last_write p ss) as [c|] eqn:E; [by eexists|].
    destruct s as [p'|p' c|l]; try (by apply IH in H; destruct H).
    apply elem_of_cons in H as [->|H].
    + rewrite decide_True by done. by eexists.
    + apply IH in H. by destruct H.
Qed.

(** The script reads the integrator only through its base path, its
    registry and its two lists. *)
Lemma script_ext now o1 o2 :
  base_path o1 = base_path o2 ->
  mcp_servers o1 = mcp_servers o2 ->
  mcp_connections o1 = mcp_connections o2 ->
  mcp_patterns o1 = mcp_patterns o2 ->
  Script.script now o1 = Script.script now o2.
Proof.
  intros Hb Hs Hc Hp.
  unfold Script.script, Script.artifact_steps, Script.config_steps,
    Script.analysis_steps, Script.manifest_steps, Script.vercel_steps,
    Script.netlify_steps, Script.analysis_path, Script.manifest_path,
    Script.vercel_path, Script.netlify_path, Script.summary_lines,
    MCPEcosystemIntegrator.manifest_document.
  by rewrite Hb, Hs, Hc, Hp.
Qed.

(** ** The liveness probe *)

Section Probe.
Import GenericMCPHandler.

(** The bytes of the body sent on [/health]. *)
Lemma health_body :
  Json.dumps response
  = "{" +:+ q "status" +:+ ": " +:+ q "healthy" +:+ ", "
    +:+ q "server" +:+ ": " +:+ q "apple-notes-mcp" +:+ "}".
Proof. reflexivity. Qed.

(** C9. For every GET request: when the request path is [/health] the
    response status is 200 and the body is the JSON object whose keys are
    exactly [status], with value [healthy], and [server], with the fixed
    server name; for any other request path the status is 404 and the
    body is empty. *)
Theorem do_GET_contract (path : string) :
  (path = "/health" ->
     status_code (do_GET path) = 200%Z
     /\ body (do_GET path) = Json.dumps response
     /\ Json.keys response = ["status"; "server"]
     /\ Json.get "status" response = Some (JStr "healthy")
     /\ Json.get "server" response = Some (JStr "apple-notes-mcp"))
  /\ (path <> "/health" ->
        status_code (do_GET path) = 404%Z /\ body (do_GET path) = "").
Proof.
  unfold do_GET. split; intros H.
  - rewrite decide_True by exact H. repeat split.
  - rewrite decide_False by exact H. split; reflexivity.
Qed.

Lemma do_GET_contract_witness :
  (status_code (do_GET "/health") = 200%Z
   /\ body (do_GET "/health") = Json.dumps response
   /\ Json.keys response = ["status"; "server"]
   /\ Json.get "status" response = Some (JStr "healthy")
   /\ Json.get "server" response = Some (JStr "apple-notes-mcp"))
  /\ (status_code (do_GET "/metrics") = 404%Z /\ body (do_GET "/metrics") = "").
Proof.
  split.
  - apply (proj1 (do_GET_contract "/health")). reflexivity.
  - apply (proj2 (do_GET_contract "/metrics")). discriminate.
Defined.

(** C10, as the specification states it, fails: the raw request target
    [//health] differs from [/health], and the request is answered 200,
    because the library reduces the leading slashes to one before [do_GET]
    compares. *)
Lemma double_slash_health_answered_200 :
  "//health" <> "/health"
  /\ request_path "//health" = "/health"
  /\ status_code (handle_GET "//health") = 200%Z.
Proof. split; [discriminate|]. split; reflexivity. Qed.

(** A target that does not start with two slashes reaches [do_GET] as it
    stands. *)
Lemma request_path_single_slash (raw : string) :
  startswith "//" raw = false -> request_path raw = raw.
Proof. unfold request_path. by intros ->. Qed.

(** C10, amended. The handler compares [self.path], which is the request
    target with a run of leading slashes reduced to one, query string
    included, with [/health] by string equality: every GET request whose
    [self.path] differs from it, were it by a trailing slash, by case or
    by a query string, is answered 404 and not 200, with an empty body. *)
Theorem do_GET_exact_match (raw : string) :
  request_path raw <> "/health" ->
  status_code (handle_GET raw) = 404%Z
  /\ status_code (handle_GET raw) <> 200%Z
  /\ body (handle_GET raw) = "".
Proof.
  intros H. unfold handle_GET, do_GET. rewrite decide_False by exact H.
  repeat split. discriminate.
Qed.

Lemma do_GET_exact_match_witness :
  status_code (handle_GET "/health/") = 404%Z
  /\ status_code (handle_GET "/Health") = 404%Z
  /\ status_code (handle_GET "/health?x=1") = 404%Z.
Proof.
  split; [|split].
  - apply (do_GET_exact_match "/health/"). discriminate.
  - apply (do_GET_exact_match "/Health"). discriminate.
  - apply (do_GET_exact_match "/health?x=1"). discriminate.
Defined.

End Probe.

(** ** The documents the renderer builds *)

Section Documents.
Import MCPEcosystemIntegrator.

Lemma map_JStr_inj (l1 l2 : list string) : map JStr l1 = map JStr l2 -> l1 = l2.
Proof.
  revert l2. induction l1 as [|a l1 IH]; intros [|b l2] H; try discriminate; [done|].
  cbn in H. injection H as -> H. f_equal. by apply IH.
Qed.

(** A connection can be read back from its entry in the manifest. *)
Lemma connection_document_inj c1 c2 :
  connection_document c1 = connection_document c2 -> c1 = c2.
Proof.
  destruct c1, c2. unfold connection_document. cbn.
  intros [= -> -> -> -> He -> Hc ->].
  apply map_JStr_inj in He, Hc. by subst.
Qed.

Lemma pattern_document_inj p1 p2 :
  pattern_document p1 = pattern_document p2 -> p1 = p2.
Proof.
  destruct p1, p2. unfold pattern_document. cbn.
  intros [= -> -> Hs Ht -> He ->].
  apply map_JStr_inj in Hs, Ht, He. by subst.
Qed.


(** For a server the three tables do not know, the three sequences are
    rendered as empty lists. *)
Lemma server_config_document_unknown :
  let server_config :=
    {| ServerConfig.name := "Probe"; ServerConfig.path := "/srv/probe";
       ServerConfig.capabilities := []; ServerConfig.endpoints := [] |} in
  let doc := server_config_document "probe" server_config in
  Json.get "tools" doc = Some (JList [])
  /\ Json.get "resources" doc = Some (JList [])
  /\ Json.get "prompts" doc = Some (JList [])
  /\ contains (q "tools" +:+ ": []," +:+ newline) (Json.dumps_indent 2 doc) = true
  /\ contains (q "resources" +:+ ": []," +:+ newline) (Json.dumps_indent 2 doc) = true
  /\ contains (q "prompts" +:+ ": []" +:+ newline) (Json.dumps_indent 2 doc) = true.
Proof. vm_compute. repeat split. Qed.

(** The config document of every registered server is what the run writes
    to that server's config file. *)
Lemma config_steps_write (o : Integrator) server_name server_config :
  (server_name, server_config) ∈ mcp_servers o ->
  DoWrite (server_config_path (base_path o) server_name)
          (Json.dumps_indent 2 (server_config_document server_name server_config))
  ∈ Script.config_steps o.
Proof.
  unfold Script.config_steps. induction (mcp_servers o) as [|item items IH].
  - intros H. by apply elem_of_nil in H.
  - intros H. cbn [map concat]. apply elem_of_app.
    apply elem_of_cons in H as [<-|H]; [left | right; by apply IH].
    unfold Script.server_steps. cbn [fst snd]. set_solver.
Qed.




End Documents.

(** ** The relationship model *)

Section Model.
Import MCPEcosystemIntegrator.

Lemma store_connections_run cs (env : Env) m :
  (store_connections cs env m).1 = Returned tt
  /\ mcp_connections (self (store_connections cs env m).2) = cs
  /\ mcp_servers (self (store_connections cs env m).2) = mcp_servers (self m).
Proof. repeat split. Qed.

Lemma store_patterns_run ps (env : Env) m :
  (store_patterns ps env m).1 = Returned tt
  /\ mcp_patterns (self (store_patterns ps env m).2) = ps
  /\ mcp_servers (self (store_patterns ps env m).2) = mcp_servers (self m).
Proof. repeat split. Qed.

(** C1, as the specification states it, fails: a connection from the
    unregistered id [ghost] is constructed and stored, and nothing is
    raised. *)
Lemma ghost_connection_is_stored :
  let m := fresh default_base_path ∅ in
  let r := store_connections [ghost_connection] (permissive noon) m in
  Checks.registered (self m) (MCPConnection.source ghost_connection) = false
  /\ mcp_connections (self m) = []
  /\ r.1 = Returned tt
  /\ mcp_connections (self r.2) = [ghost_connection].
Proof. vm_compute. repeat split. Qed.

(** C1, amended. Building connections consults no registry and raises
    nothing: whatever list is stored is held as it is, and
    [create_mcp_connections] stores its five fixed connections; the
    source and the target of each of the five are registered server
    ids. *)
Theorem connections_stored_unchecked :
  (forall cs env m,
      (store_connections cs env m).1 = Returned tt
      /\ mcp_connections (self (store_connections cs env m).2) = cs)
  /\ (forall env m,
         (create_mcp_connections env m).1 = Returned tt
         /\ mcp_connections (self (create_mcp_connections env m).2)
            = connection_list
         /\ mcp_servers (self (create_mcp_connections env m).2)
            = mcp_servers (self m))
  /\ length connection_list = 5
  /\ forall base,
       Forall (fun conn => Checks.resolves (__init__ base) conn = true)
              connection_list.
Proof.
  split; [|split; [|split]]; try (intros; repeat split).
  repeat constructor.
Qed.

(** C3, as the specification states it, fails in its second half: a
    connection between two registered servers that lists
    [/api/v1/unknown], which neither declares, is stored and nothing is
    raised. *)
Lemma stray_endpoint_connection_is_stored :
  let m := fresh default_base_path ∅ in
  let r := store_connections [stray_endpoint_connection] (permissive noon) m in
  Checks.resolves (self m) stray_endpoint_connection = true
  /\ Checks.endpoints_declared (self m) stray_endpoint_connection = false
  /\ r.1 = Returned tt
  /\ mcp_connections (self r.2) = [stray_endpoint_connection].
Proof. vm_compute. repeat split. Qed.

(** C3, amended. Every endpoint of each of the five connections that
    [create_mcp_connections] stores is declared by the registry entry of
    its source or of its target; no check enforces it, and a list of
    connections is stored whatever endpoints they name. *)
Theorem connection_endpoints_declared :
  (forall base,
      Forall (fun conn => Checks.endpoints_declared (__init__ base) conn = true)
             connection_list)
  /\ (forall env m,
         mcp_connections (self (create_mcp_connections env m).2)
         = connection_list)
  /\ (forall cs env m,
         (store_connections cs env m).1 = Returned tt
         /\ mcp_connections (self (store_connections cs env m).2) = cs).
Proof.
  split; [|split]; try (intros; repeat split).
  repeat constructor.
Qed.

(** C2, as the specification states it, fails: the first pattern
    [create_mcp_patterns] stores has [github] as the first token of its
    data flow, which is no registered id and no source component, and
    nothing is raised. *)
Lemma repository_analysis_data_flow_malformed :
  let r := create_mcp_patterns (permissive noon) (fresh default_base_path ∅) in
  r.1 = Returned tt
  /\ exists p,
       mcp_patterns (self r.2) !! 0%nat = Some p
       /\ MCPPattern.name p = "Repository Analysis Workflow"
       /\ Checks.data_flow_tokens p
          = ["github"; "claude_flow"; "iza_os_core"; "activepieces"]
       /\ Checks.registered (self r.2) "github" = false
       /\ bool_decide ("github" ∈ MCPPattern.source_components p) = false
       /\ Checks.data_flow_well_formed (self r.2) p = false.
Proof. split; [reflexivity|]. eexists. vm_compute. repeat split. Qed.

(** C2, amended. Patterns are stored without any check of their data
    flow and nothing is raised. Of the four patterns
    [create_mcp_patterns] stores, the three named AI Agent Orchestration,
    System Health Monitoring and Workflow Automation Chain have a data
    flow that splits on [ -> ] into four tokens, each a registered id, the
    first a source component and the last a target component. *)
Theorem patterns_stored_unchecked :
  (forall ps env m,
      (store_patterns ps env m).1 = Returned tt
      /\ mcp_patterns (self (store_patterns ps env m).2) = ps)
  /\ (forall env m,
         (create_mcp_patterns env m).1 = Returned tt
         /\ mcp_patterns (self (create_mcp_patterns env m).2) = pattern_list)
  /\ map MCPPattern.name (drop 1 pattern_list)
     = ["AI Agent Orchestration"; "System Health Monitoring";
        "Workflow Automation Chain"]
  /\ Forall (fun p => length (Checks.data_flow_tokens p) = 4)
            (drop 1 pattern_list)
  /\ forall base,
       Forall (fun p => Checks.data_flow_well_formed (__init__ base) p = true)
              (drop 1 pattern_list).
Proof.
  split; [|split; [|split; [|split]]]; try (intros; repeat split).
  - repeat constructor.
  - repeat constructor.
Qed.

End Model.

(** ** The platform descriptors *)

Section Descriptors.
Import MCPEcosystemIntegrator.

Lemma append_assoc (a b c : string) : (a +:+ b) +:+ c = a +:+ (b +:+ c).
Proof.
  induction a as [|x a IH]; [reflexivity|].
  change (String x ((a +:+ b) +:+ c) = String x (a +:+ (b +:+ c))).
  by rewrite IH.
Qed.

Lemma drop_chars_append (a b : string) :
  drop_chars (String.length a) (a +:+ b) = b.
Proof. induction a as [|x a IH]; [by destruct b|]. exact IH. Qed.

(** The declared locations of the four servers, relative to the base
    path. *)
Lemma declared_locations base :
  map (fun item => (fst item, Routes.location (__init__ base) (snd item)))
      (mcp_servers (__init__ base))
  = [("activepieces", "/worldwidebro-repositories/activepieces");
     ("claude_flow", "/iza-os-integrated/30-models/claude-flow");
     ("iza_os_core", "/iza-os-integrated/00-meta");
     ("github_integration", "/worldwidebro-integration")].
Proof.
  unfold Routes.location, __init__, Path.div.
  cbv zeta. cbn [map fst snd mcp_servers base_path ServerConfig.path].
  rewrite !append_assoc, !drop_chars_append. reflexivity.
Qed.

Lemma dict_lookup_map {V W} (f : V -> W) (d : list (string * V)) id :
  dict_lookup (map (fun item => (fst item, f (snd item))) d) id
  = option_map f (dict_lookup d id).
Proof.
  induction d as [|[k v] d IH]; [reflexivity|]. cbn.
  by destruct (decide (k = id)).
Qed.

Lemma served_under_init base name id rules :
  Routes.served_under (__init__ base) name id rules
  = match dict_lookup
            [("activepieces", "/worldwidebro-repositories/activepieces");
             ("claude_flow", "/iza-os-integrated/30-models/claude-flow");
             ("iza_os_core", "/iza-os-integrated/00-meta");
             ("github_integration", "/worldwidebro-integration")] id with
    | Some loc => existsb (Routes.serves name loc) rules
    | None => false
    end.
Proof.
  unfold Routes.served_under.
  rewrite <- (declared_locations base), dict_lookup_map.
  by destruct (dict_lookup _ id).
Qed.

(** C8, as the specification states it, fails: [iza_os_core] is
    registered, and neither descriptor has a rule whose pattern starts
    with [/api/iza_os_core/]. *)
Lemma registry_not_covered_by_routes :
  let o := __init__ default_base_path in
  Checks.registered o "iza_os_core" = true
  /\ existsb (fun r => startswith (Routes.prefix_of "iza_os_core") (fst r))
             (Routes.vercel_routes vercel_config) = false
  /\ existsb (fun r => startswith (Routes.prefix_of "iza_os_core") (fst r))
             (Routes.netlify_redirects netlify_config) = false
  /\ Routes.covers_registry o (Routes.vercel_routes vercel_config) = false
  /\ Routes.covers_registry o (Routes.netlify_redirects netlify_config) = false.
Proof. vm_compute. repeat split. Qed.

(** C8, amended. Each of the two descriptors contains the same four
    fixed route rules, with the prefixes [/api/iza-os/],
    [/api/activepieces/], [/api/claude-flow/] and [/api/github/], mapped
    to paths under the declared locations of [iza_os_core],
    [activepieces], [claude_flow] and [github_integration] respectively.
    The descriptors are literals: what is written to [vercel.json] and
    [netlify.toml] is the same whatever the registry holds, so a further
    registered server adds no rule. *)
Theorem route_rules_are_fixed :
  Routes.vercel_routes vercel_config
  = [("/api/iza-os/(.*)", "/iza-os-integrated/00-meta/api/$1");
     ("/api/activepieces/(.*)",
      "/worldwidebro-repositories/activepieces/packages/server/api/$1");
     ("/api/claude-flow/(.*)", "/iza-os-integrated/30-models/claude-flow/api/$1");
     ("/api/github/(.*)", "/worldwidebro-integration/api/$1")]
  /\ Routes.netlify_redirects netlify_config
     = [("/api/iza-os/*", "/iza-os-integrated/00-meta/api/:splat");
        ("/api/activepieces/*",
         "/worldwidebro-repositories/activepieces/packages/server/api/:splat");
        ("/api/claude-flow/*",
         "/iza-os-integrated/30-models/claude-flow/api/:splat");
        ("/api/github/*", "/worldwidebro-integration/api/:splat")]
  /\ (forall base,
         Forall (fun names =>
                   Routes.served_under (__init__ base) (fst names) (snd names)
                     (Routes.vercel_routes vercel_config) = true
                   /\ Routes.served_under (__init__ base) (fst names) (snd names)
                        (Routes.netlify_redirects netlify_config) = true)
                Routes.prefix_names)
  /\ (forall o,
         Script.vercel_steps o
         = [DoWrite (Script.vercel_path o) (Json.dumps_indent 2 vercel_config);
            DoPrint ("⚙️ Created Vercel configuration: " +:+ Script.vercel_path o)]
         /\ Script.netlify_steps o
            = [DoWrite (Script.netlify_path o) netlify_config;
               DoPrint ("⚙️ Created Netlify configuration: "
                        +:+ Script.netlify_path o)])
  /\ (forall env m,
         create_vercel_config env m = exec (Script.vercel_steps (self m)) env m
         /\ create_netlify_config env m
            = exec (Script.netlify_steps (self m)) env m).
Proof.
  split; [vm_compute; reflexivity|]. split; [vm_compute; reflexivity|].
  split; [|split].
  - intros base. unfold Routes.prefix_names.
    repeat constructor; cbn [fst snd];
      rewrite served_under_init; vm_compute; reflexivity.
  - intros o. split; reflexivity.
  - intros env m. split;
      [apply create_vercel_config_exec | apply create_netlify_config_exec].
Qed.

End Descriptors.

(** ** Whole runs *)

Section Runs.
Import MCPEcosystemIntegrator.

Lemma apply_steps_stdout ss m :
  stdout (apply_steps ss m) = stdout m ++ printed_lines ss.
Proof.
  revert m. induction ss as [|s ss IH]; intros m.
  - cbn. by rewrite app_nil_r.
  - rewrite apply_steps_cons, IH. unfold printed_lines.
    destruct s; cbn [apply_step stdout omap]; by rewrite <- ?app_assoc.
Qed.

Lemma refuse_step_stdout s m : stdout (refuse_step s m) = stdout m.
Proof. by destruct s. Qed.

(** When every call on the file system goes through, the run returns and
    has performed its whole script. *)
Lemma run_integration_permitted (env : Env) m :
  (forall op, permits env op = true) ->
  run_integration env m
  = (Returned tt,
     apply_steps (Script.script (now_isoformat env) (Script.loaded (self m)))
                 (Script.load m)).
Proof.
  intros H. rewrite run_integration_exec. apply exec_permitted.
  apply forallb_forall. intros s _. unfold step_permitted.
  destruct (sink_op s); [apply H | reflexivity].
Qed.

Lemma written_paths_app ss1 ss2 :
  written_paths (ss1 ++ ss2) = written_paths ss1 ++ written_paths ss2.
Proof.
  induction ss1 as [|s ss1 IH]; [reflexivity|].
  destruct s; cbn [app written_paths]; by rewrite IH.
Qed.

Lemma written_paths_prints lines : written_paths (map DoPrint lines) = [].
Proof. induction lines as [|l lines IH]; [reflexivity|]. exact IH. Qed.

(** The artifacts of a run: one config file per registered server, then
    the deployment analysis, the manifest and the two descriptors. *)
Lemma script_written_paths now o :
  written_paths (Script.script now o)
  = map (fun item => server_config_path (base_path o) (fst item)) (mcp_servers o)
    ++ [Script.analysis_path o; Script.manifest_path o;
        Script.vercel_path o; Script.netlify_path o].
Proof.
  unfold Script.script, Script.artifact_steps, Script.config_steps.
  cbn [written_paths]. rewrite !written_paths_app, written_paths_prints.
  rewrite app_nil_r. f_equal.
  induction (mcp_servers o) as [|item items IH]; [reflexivity|].
  cbn [map concat]. rewrite written_paths_app, IH. reflexivity.
Qed.

(** C4. Two runs from the same static declarations (base path and
    registry) that read the same timestamp, each with a file system that
    lets every call through, both return and leave byte-identical content
    in every artifact, whatever files, lists and console lines each
    started with; and running again on the result changes no file. *)
Theorem generation_deterministic (env1 env2 : Env) (m1 m2 : Machine) :
  now_isoformat env1 = now_isoformat env2 ->
  base_path (self m1) = base_path (self m2) ->
  mcp_servers (self m1) = mcp_servers (self m2) ->
  (forall op, permits env1 op = true) ->
  (forall op, permits env2 op = true) ->
  let r1 := run_integration env1 m1 in
  let r2 := run_integration env2 m2 in
  r1.1 = Returned tt
  /\ r2.1 = Returned tt
  /\ (forall p,
         p ∈ written_paths
               (Script.script (now_isoformat env1) (Script.loaded (self m1))) ->
         is_Some (files r1.2 !! p) /\ files r1.2 !! p = files r2.2 !! p)
  /\ files (run_integration env1 r1.2).2 = files r1.2.
Proof.
  intros Hnow Hbase Hservers H1 H2. cbv zeta.
  rewrite (run_integration_permitted env1 m1 H1),
    (run_integration_permitted env2 m2 H2).
  cbn [fst snd].
  assert (Hscript :
    Script.script (now_isoformat env2) (Script.loaded (self m2))
    = Script.script (now_isoformat env1) (Script.loaded (self m1))).
  { rewrite <- Hnow. by apply script_ext. }
  rewrite Hscript.
  set (ss := Script.script (now_isoformat env1) (Script.loaded (self m1))).
  split; [reflexivity|]. split; [reflexivity|]. split.
  - intros p Hp. apply last_write_written in Hp as [c Hc].
    rewrite !apply_steps_files, Hc. split; [by eexists | reflexivity].
  - rewrite (run_integration_permitted env1 _ H1). cbn [snd].
    rewrite apply_steps_self.
    assert (Hagain :
      Script.script (now_isoformat env1)
        (Script.loaded (self (Script.load m1))) = ss)
      by (by apply script_ext).
    rewrite Hagain. apply map_eq. intros p.
    rewrite apply_steps_files. cbn [Script.load files].
    rewrite !apply_steps_files. cbn [Script.load files].
    by destruct (last_write p ss).
Qed.

Lemma generation_deterministic_witness :
  let r1 := run_integration (permissive noon) (fresh default_base_path ∅) in
  let r2 := run_integration (permissive noon) stale_machine in
  r1.1 = Returned tt
  /\ r2.1 = Returned tt
  /\ (forall p,
         p ∈ written_paths
               (Script.script noon (Script.loaded (__init__ default_base_path))) ->
         is_Some (files r1.2 !! p) /\ files r1.2 !! p = files r2.2 !! p)
  /\ files (run_integration (permissive noon) r1.2).2 = files r1.2.
Proof.
  apply (generation_deterministic (permissive noon) (permissive noon)
           (fresh default_base_path ∅) stale_machine);
    reflexivity.
Defined.

(** C5, as the specification states it, fails: when only the write of the
    manifest is refused, [run_integration] raises [OSError] to its
    caller, and [vercel.json] and [netlify.toml], which the file system
    would have accepted, are never opened. *)
Lemma manifest_write_failure_aborts :
  let o := __init__ default_base_path in
  let env := refusing noon (Script.manifest_path o) in
  let out := main env ∅ in
  permits env (Open (Script.vercel_path o)) = true
  /\ permits env (Open (Script.netlify_path o)) = true
  /\ out.1 = Raised (OSError (Script.manifest_path o))
  /\ sink_calls out.2
     = concat (map (fun n => [Mkdir (default_base_path /: "mcp-configs");
                              Open (server_config_path default_base_path n)])
                   ["activepieces"; "claude_flow"; "iza_os_core";
                    "github_integration"])
       ++ [Open (Script.analysis_path o); Open (Script.manifest_path o)]
  /\ files out.2 !! Script.vercel_path o = None
  /\ files out.2 !! Script.netlify_path o = None.
Proof. vm_compute. repeat split. Qed.

(** C5, amended. A run stops at the first call the file system refuses:
    [OSError] on that path propagates out of [run_integration], the steps
    before it have taken effect (artifacts ordered before the refused one
    are written), no later step is performed (no later artifact is
    attempted, no summary is printed), and there is no run report. The
    run returns normally exactly when no call is refused, and then every
    artifact is written. *)
Theorem run_stops_at_first_refusal (env : Env) (m : Machine) done r :
  let ss := Script.script (now_isoformat env) (Script.loaded (self m)) in
  let out := run_integration env m in
  (first_refused env ss = Some (done, r) ->
     out.1 = Raised (OSError (step_path r))
     /\ sink_calls out.2 = sink_calls m ++ omap sink_op (done ++ [r])
     /\ stdout out.2 = stdout m ++ printed_lines done
     /\ forall p, files out.2 !! p = match last_write p done with
                                    | Some c => Some c
                                    | None => files m !! p
                                    end)
  /\ (first_refused env ss = None ->
        out.1 = Returned tt
        /\ sink_calls out.2 = sink_calls m ++ omap sink_op ss
        /\ stdout out.2 = stdout m ++ printed_lines ss
        /\ forall p, files out.2 !! p = match last_write p ss with
                                       | Some c => Some c
                                       | None => files m !! p
                                       end).
Proof.
  cbv zeta. rewrite run_integration_exec. split; intros H.
  - rewrite (exec_refused env _ done r _ H). cbn [fst snd].
    split; [reflexivity|].
    rewrite refuse_step_sink_calls, refuse_step_stdout, apply_steps_sink_calls,
      apply_steps_stdout, omap_app, app_assoc.
    split; [reflexivity|]. split; [reflexivity|].
    intros p. rewrite refuse_step_files, apply_steps_files. reflexivity.
  - rewrite (exec_permitted env _ _ (first_refused_none env _ H)).
    cbn [fst snd]. split; [reflexivity|].
    rewrite apply_steps_sink_calls, apply_steps_stdout.
    split; [reflexivity|]. split; [reflexivity|].
    intros p. rewrite apply_steps_files. reflexivity.
Qed.

Lemma run_stops_at_first_refusal_witness :
  let o := __init__ default_base_path in
  let env := refusing noon (Script.manifest_path o) in
  let m := fresh default_base_path ∅ in
  let ss := Script.script noon (Script.loaded o) in
  let r := DoWrite (Script.manifest_path o)
             (Json.dumps_indent 2 (manifest_document noon (Script.loaded o))) in
  first_refused env ss = Some (take 15 ss, r)
  /\ (run_integration env m).1 = Raised (OSError (Script.manifest_path o))
  /\ sink_calls (run_integration env m).2 = omap sink_op (take 15 ss ++ [r]).
Proof.
  cbv zeta.
  set (o := __init__ default_base_path).
  set (env := refusing noon (Script.manifest_path o)).
  set (m := fresh default_base_path ∅).
  set (ss := Script.script noon (Script.loaded o)).
  set (r := DoWrite _ _).
  assert (H : first_refused env ss = Some (take 15 ss, r))
    by (vm_compute; reflexivity).
  split; [exact H|].
  destruct (proj1 (run_stops_at_first_refusal env m (take 15 ss) r) H)
    as (H1 & H2 & _).
  split; [exact H1 | exact H2].
Defined.

(** The timestamp is the one input the manifest depends on besides the
    static declarations: two clock readings give two manifests. *)
Lemma manifest_depends_on_timestamp :
  let o := Script.loaded (__init__ default_base_path) in
  String.eqb (Json.dumps_indent 2 (manifest_document noon o))
             (Json.dumps_indent 2 (manifest_document "2026-01-02T12:00:00" o))
  = false.
Proof. vm_compute. reflexivity. Qed.

End Runs.

(** * Further properties of the code *)

(** ** Text and paths *)

Lemma length_append (a b : string) :
  String.length (a +:+ b) = (String.length a + String.length b)%nat.
Proof.
  induction a as [|x a IH]; [reflexivity|].
  change (S (String.length (a +:+ b)) = S (String.length a + String.length b)).
  by rewrite IH.
Qed.

Lemma append_String x (a b : string) : String x a +:+ b = String x (a +:+ b).
Proof. reflexivity. Qed.

Lemma append_inj_l (a b c : string) : a +:+ b = a +:+ c -> b = c.
Proof.
  induction a as [|x a IH]; [done|].
  rewrite !append_String. intros [= H]. by apply IH.
Qed.

Lemma append_inj_r (a b c : string) : a +:+ c = b +:+ c -> a = b.
Proof.
  revert b. induction a as [|x a IH]; intros [|y b] H.
  - reflexivity.
  - apply (f_equal String.length) in H. rewrite !length_append in H.
    cbn [String.length] in H. lia.
  - apply (f_equal String.length) in H. rewrite !length_append in H.
    cbn [String.length] in H. lia.
  - rewrite !append_String in H. injection H as -> H. f_equal. by apply IH.
Qed.

Lemma startswith_append (a b : string) : startswith a (a +:+ b) = true.
Proof.
  induction a as [|x a IH]; [by destruct b|].
  rewrite append_String. cbn [startswith]. by rewrite decide_True.
Qed.

(** ** Where the text of a path is [pathlib]'s *)

Lemma append_nil_r (a : string) : a +:+ "" = a.
Proof.
  induction a as [|x a IH]; [reflexivity|].
  rewrite append_String. by rewrite IH.
Qed.

Lemma rev_app_append (a b s : string) :
  String.rev_app a b +:+ s = String.rev_app a (b +:+ s).
Proof.
  revert b. induction a as [|x a IH]; intros b; [reflexivity|].
  cbn [String.rev_app]. by rewrite IH.
Qed.

Lemma rev_push (c : ascii) (cur s : string) :
  String.rev (String c cur) +:+ s = String.rev cur +:+ String c s.
Proof. unfold String.rev. cbn [String.rev_app]. by rewrite !rev_app_append. Qed.

Lemma startswith_slash (c : ascii) (s : string) :
  startswith "/" (String c s) = bool_decide (c = "/"%char).
Proof.
  cbn [startswith]. destruct (decide ("/"%char = c)) as [<-|Hne].
  - by rewrite bool_decide_true.
  - by rewrite bool_decide_false.
Qed.

Lemma split_go_nonempty (cur s : string) : split_go "/" 0 cur s <> [].
Proof.
  revert cur. induction s as [|c s IH]; intros cur; [done|].
  cbn [split_go]. destruct (startswith "/" (String c s)); [done|apply IH].
Qed.

Lemma join_cons (sep p : string) (rest : list string) :
  rest <> [] -> join sep (p :: rest) = p +:+ sep +:+ join sep rest.
Proof. by destruct rest. Qed.

Lemma join_split_go (cur s : string) :
  join "/" (split_go "/" 0 cur s) = String.rev cur +:+ s.
Proof.
  revert cur. induction s as [|c s IH]; intros cur.
  - cbn [split_go join]. by rewrite append_nil_r.
  - cbn [split_go]. rewrite startswith_slash.
    destruct (bool_decide_reflect (c = "/"%char)) as [->|Hne].
    + rewrite join_cons by apply split_go_nonempty.
      change (String.length "/" - 1)%nat with 0%nat. by rewrite IH.
    + rewrite IH. apply rev_push.
Qed.

(** Splitting at the slashes and joining again gives the text back. *)
Lemma join_split (s : string) : join "/" (split "/" s) = s.
Proof. unfold split. by rewrite join_split_go. Qed.

Lemma contains_slash_cons (c : ascii) (s : string) :
  contains "/" (String c s) = bool_decide (c = "/"%char) || contains "/" s.
Proof.
  change (contains "/" (String c s))
    with (startswith "/" (String c s) || contains "/" s).
  by rewrite startswith_slash.
Qed.

Lemma split_go_plain (cur s : string) :
  contains "/" s = false -> split_go "/" 0 cur s = [String.rev cur +:+ s].
Proof.
  revert cur. induction s as [|c s IH]; intros cur H.
  - cbn [split_go]. by rewrite append_nil_r.
  - rewrite contains_slash_cons in H. apply orb_false_iff in H as [Hc Hs].
    cbn [split_go]. rewrite startswith_slash, Hc, (IH _ Hs).
    by rewrite rev_push.
Qed.

Lemma split_plain (s : string) :
  Path.plain_name s = true -> split "/" s = [s].
Proof.
  unfold Path.plain_name. intros H. apply negb_true_iff in H.
  unfold split. by rewrite split_go_plain.
Qed.

Lemma split_go_div (cur a b : string) :
  split_go "/" 0 cur (a +:+ "/" +:+ b) = split_go "/" 0 cur a ++ split "/" b.
Proof.
  revert cur. induction a as [|c a IH]; intros cur; [reflexivity|].
  rewrite append_String. cbn [split_go]. rewrite !startswith_slash.
  destruct (bool_decide (c = "/"%char)).
  - change (String.length "/" - 1)%nat with 0%nat. by rewrite IH.
  - apply IH.
Qed.

Lemma split_div (p child : string) :
  split "/" (p /: child) = split "/" p ++ split "/" child.
Proof. apply split_go_div. Qed.

Lemma filter_forallb {A} (f : A -> bool) (l : list A) :
  forallb f l = true -> List.filter f l = l.
Proof.
  induction l as [|x l IH]; [done|].
  cbn [forallb List.filter]. intros H. apply andb_true_iff in H as [Hx Hl].
  by rewrite Hx, IH.
Qed.

Lemma join_snoc (l : list string) (x : string) :
  l <> [] -> join "/" (l ++ [x]) = (join "/" l +:+ "/") +:+ x.
Proof.
  induction l as [|a l IH]; [done|]. intros _.
  destruct l as [|b l].
  { change (a +:+ "/" +:+ x = (a +:+ "/") +:+ x). by rewrite append_assoc. }
  change (a +:+ "/" +:+ join "/" ((b :: l) ++ [x])
          = ((a +:+ "/" +:+ join "/" (b :: l)) +:+ "/") +:+ x).
  rewrite IH by done. by rewrite !append_assoc.
Qed.

Lemma parse_plain (child : string) :
  Path.plain_name child = true -> Path.proper_component child = true ->
  Pathlib.parse child = {| Pathlib.root := ""; Pathlib.parts := [child] |}.
Proof.
  intros Hplain Hproper. unfold Pathlib.parse.
  rewrite (split_plain _ Hplain). cbn [List.filter]. rewrite Hproper.
  f_equal. unfold Pathlib.root_of.
  destruct child as [|c child]; [reflexivity|].
  unfold Path.plain_name in Hplain. apply negb_true_iff in Hplain.
  rewrite contains_slash_cons in Hplain. apply orb_false_iff in Hplain as [Hc _].
  by rewrite startswith_slash, Hc.
Qed.

(** A normalised path is the text of its parsed form. *)
Lemma parse_normal (p : string) :
  Path.normal p = true ->
  Pathlib.root (Pathlib.parse p) +:+ join "/" (Pathlib.parts (Pathlib.parse p)) = p
  /\ Pathlib.parts (Pathlib.parse p) <> [].
Proof.
  unfold Path.normal, Pathlib.parse, Pathlib.root_of.
  cbn [Pathlib.root Pathlib.parts].
  destruct (startswith "/" p) eqn:Hroot.
  - intros H. apply andb_true_iff in H as [Hdouble H].
    apply negb_true_iff in Hdouble. rewrite Hdouble. cbn [andb].
    pose proof (join_split p) as Hjoin.
    destruct (split "/" p) as [|c0 [|c1 cs]]; try discriminate H.
    + by destruct c0.
    + destruct c0; [|discriminate H].
      change (List.filter Path.proper_component ("" :: c1 :: cs))
        with (List.filter Path.proper_component (c1 :: cs)).
      rewrite (filter_forallb _ _ H). split; [exact Hjoin|done].
  - intros H. rewrite (filter_forallb _ _ H). split; [apply join_split|].
    apply split_go_nonempty.
Qed.

(** On a normalised path and a child that is one kept component,
    [pathlib]'s [/] is the text [p/child]. *)
Lemma pathlib_div_plain (p child : string) :
  Path.normal p = true ->
  Path.plain_name child = true -> Path.proper_component child = true ->
  Pathlib.div p child = p /: child.
Proof.
  intros Hnormal Hplain Hproper.
  destruct (parse_normal p Hnormal) as [Htext Hparts].
  unfold Pathlib.div, Pathlib.joinpath. rewrite (parse_plain child Hplain Hproper).
  cbn [Pathlib.root Pathlib.parts]. rewrite bool_decide_true by done.
  unfold Pathlib.str. cbn [Pathlib.root Pathlib.parts].
  assert (Pathlib.root (Pathlib.parse p)
          +:+ join "/" (Pathlib.parts (Pathlib.parse p) ++ [child])
          = p /: child) as <-.
  { rewrite join_snoc by exact Hparts. unfold Path.div.
    rewrite <- !append_assoc. by rewrite Htext. }
  destruct (Pathlib.parts (Pathlib.parse p)) as [|c cs]; [done|].
  by destruct (Pathlib.root (Pathlib.parse p)).
Qed.

(** Such a path stays normalised. *)
Lemma normal_div (p child : string) :
  Path.normal p = true ->
  Path.plain_name child = true -> Path.proper_component child = true ->
  Path.normal (p /: child) = true.
Proof.
  intros Hnormal Hplain Hproper. unfold Path.normal in *.
  rewrite split_div, (split_plain _ Hplain).
  destruct p as [|a p]; [discriminate Hnormal|].
  unfold Path.div at 1 2. rewrite !append_String.
  rewrite startswith_slash in *.
  destruct (bool_decide_reflect (a = "/"%char)) as [->|Hne].
  - apply andb_true_iff in Hnormal as [Hdouble H]. apply andb_true_iff. split.
    + destruct p as [|b p]; [discriminate H|].
      rewrite append_String. exact Hdouble.
    + destruct (split "/" (String "/" p)) as [|c0 [|c1 cs]]; try discriminate H.
      * by destruct c0.
      * destruct c0; [|discriminate H].
        change (forallb Path.proper_component ((c1 :: cs) ++ [child]) = true).
        rewrite forallb_app, H. cbn [forallb]. by rewrite Hproper.
  - rewrite forallb_app, Hnormal. cbn [forallb]. by rewrite Hproper.
Qed.

Lemma contains_slash_append (a b : string) :
  contains "/" (a +:+ b) = contains "/" a || contains "/" b.
Proof.
  induction a as [|x a IH]; [reflexivity|].
  rewrite append_String, !contains_slash_cons, IH. by rewrite orb_assoc.
Qed.

Section Paths.
Import MCPEcosystemIntegrator.

Lemma server_config_path_eq base server_name :
  server_config_path base server_name
  = base +:+ "/mcp-configs/" +:+ server_name +:+ "_mcp_config.json".
Proof.
  unfold server_config_path, Path.div. by rewrite !append_assoc.
Qed.

(** Two servers share a config file only when they have the same id. *)
Lemma server_config_path_inj base n1 n2 :
  server_config_path base n1 = server_config_path base n2 -> n1 = n2.
Proof.
  rewrite !server_config_path_eq. intros H.
  apply append_inj_l, append_inj_l in H. by apply append_inj_r in H.
Qed.

Lemma fixed_paths_distinct o :
  NoDup [Script.analysis_path o; Script.manifest_path o;
         Script.vercel_path o; Script.netlify_path o].
Proof.
  unfold Script.analysis_path, Script.manifest_path, Script.vercel_path,
    Script.netlify_path, Path.div.
  repeat (apply NoDup_cons; split;
          [rewrite ?elem_of_cons, elem_of_nil;
           intros H; repeat destruct H as [H|H];
           try (apply append_inj_l in H; discriminate H); done |]).
  apply NoDup_nil_2.
Qed.

Lemma config_path_not_fixed o server_name :
  server_config_path (base_path o) server_name
  ∉ [Script.analysis_path o; Script.manifest_path o;
     Script.vercel_path o; Script.netlify_path o].
Proof.
  rewrite server_config_path_eq.
  unfold Script.analysis_path, Script.manifest_path, Script.vercel_path,
    Script.netlify_path, Path.div.
  rewrite !elem_of_cons, elem_of_nil.
  intros H; repeat destruct H as [H|H];
    try (apply append_inj_l in H; discriminate H); done.
Qed.

(** No artifact overwrites another: when the ids of the registry are
    distinct, as the keys of a dict are, the paths a run writes are
    distinct. *)
Lemma script_written_paths_NoDup now o :
  NoDup (map fst (mcp_servers o)) ->
  NoDup (written_paths (Script.script now o)).
Proof.
  intros Hids. rewrite script_written_paths. apply NoDup_app. split; [|split].
  - induction (mcp_servers o) as [|item items IH]; [apply NoDup_nil_2|].
    cbn [map] in *. apply NoDup_cons in Hids as [Hnotin Hids].
    apply NoDup_cons. split; [|by apply IH].
    intros Hin. apply Hnotin. clear -Hin.
    induction items as [|item' items IH]; [by apply elem_of_nil in Hin|].
    cbn [map] in *. apply elem_of_cons in Hin as [Heq|Hin].
    + apply server_config_path_inj in Heq. rewrite Heq. apply list_elem_of_here.
    + apply list_elem_of_further. by apply IH.
  - intros p Hp Hfixed. clear Hids.
    induction (mcp_servers o) as [|item items IH]; [by apply elem_of_nil in Hp|].
    cbn [map] in Hp. apply elem_of_cons in Hp as [->|Hp]; [|by apply IH].
    by apply (config_path_not_fixed o (fst item)).
  - apply fixed_paths_distinct.
Qed.

Lemma config_name_plain (server_name : string) :
  Path.plain_name server_name = true ->
  Path.plain_name (server_name +:+ "_mcp_config.json") = true.
Proof.
  unfold Path.plain_name. intros H. apply negb_true_iff in H.
  by rewrite contains_slash_append, H.
Qed.

Lemma config_name_proper (server_name : string) :
  Path.proper_component (server_name +:+ "_mcp_config.json") = true.
Proof.
  unfold Path.proper_component.
  rewrite !bool_decide_false; [done| |];
    intros H; apply (f_equal String.length) in H;
    rewrite length_append in H; cbn [String.length] in H; lia.
Qed.

(** The path of a config file is the one [pathlib] builds. *)
Lemma server_config_path_pathlib (base server_name : string) :
  Path.normal base = true -> Path.plain_name server_name = true ->
  Pathlib.div (Pathlib.div base "mcp-configs") (server_name +:+ "_mcp_config.json")
  = server_config_path base server_name.
Proof.
  intros Hbase Hname. unfold server_config_path.
  rewrite (pathlib_div_plain base "mcp-configs") by done.
  apply pathlib_div_plain;
    [by apply normal_div | by apply config_name_plain | apply config_name_proper].
Qed.

(** For a normalised base path and ids that are plain names, the paths of
    the artifacts are the ones [pathlib] builds. *)
Lemma artifact_paths_pathlib (o : Integrator) :
  Trace.plain_paths o = true ->
  Trace.pathlib_artifact_paths o = Trace.artifact_paths o.
Proof.
  unfold Trace.plain_paths, Trace.pathlib_artifact_paths, Trace.artifact_paths.
  intros H. apply andb_true_iff in H as [Hbase Hids]. f_equal.
  - induction (mcp_servers o) as [|item items IH]; [reflexivity|].
    cbn [map forallb] in *. apply andb_true_iff in Hids as [Hid Hids].
    by rewrite server_config_path_pathlib, IH.
  - unfold Script.analysis_path, Script.manifest_path, Script.vercel_path,
      Script.netlify_path.
    by rewrite !(pathlib_div_plain (base_path o)).
Qed.

(** X11. No artifact overwrites another: for a normalised base path and
    registry ids that are plain names (no slash) and distinct, as the keys
    of a dict are, the paths [pathlib] builds for the files a run writes
    are the texts base, slash, name of the model and are pairwise
    distinct. *)
Theorem artifact_paths_distinct (o : Integrator) :
  Trace.plain_paths o = true ->
  NoDup (map fst (mcp_servers o)) ->
  Trace.pathlib_artifact_paths o = Trace.artifact_paths o
  /\ NoDup (Trace.pathlib_artifact_paths o).
Proof.
  intros Hplain H. rewrite (artifact_paths_pathlib o Hplain).
  split; [reflexivity|].
  pose proof (script_written_paths_NoDup "" o H) as Hnd.
  by rewrite script_written_paths in Hnd.
Qed.

Lemma artifact_paths_distinct_witness :
  NoDup (Trace.pathlib_artifact_paths (__init__ default_base_path)).
Proof.
  apply artifact_paths_distinct.
  - vm_compute. reflexivity.
  - apply (bool_decide_unpack _). vm_compute. exact I.
Defined.

End Paths.

(** ** What a run does to the machine *)

Section RunEffects.
Import MCPEcosystemIntegrator.

(** A run either performs its whole script and returns, or performs the
    steps up to the first refused one and raises. *)
Lemma run_integration_cases (env : Env) m :
  let ss := Script.script (now_isoformat env) (Script.loaded (self m)) in
  run_integration env m = (Returned tt, apply_steps ss (Script.load m))
  \/ exists done r rest,
       ss = done ++ r :: rest
       /\ step_permitted env r = false
       /\ run_integration env m
          = (Raised (OSError (step_path r)),
             refuse_step r (apply_steps done (Script.load m))).
Proof.
  cbv zeta. rewrite run_integration_exec.
  destruct (first_refused env
              (Script.script (now_isoformat env) (Script.loaded (self m))))
    as [[done r]|] eqn:E.
  - right. destruct (first_refused_some env _ done r E) as (rest & Hss & _ & Hr).
    exists done, r, rest. split; [exact Hss|]. split; [exact Hr|].
    by apply exec_refused.
  - left. apply exec_permitted. by apply first_refused_none.
Qed.

Lemma last_write_Some_written p ss c :
  last_write p ss = Some c -> p ∈ written_paths ss.
Proof.
  revert c. induction ss as [|s ss IH]; intros c; [discriminate|].
  cbn [last_write written_paths].
  destruct (last_write p ss) as [c'|].
  - intros _. specialize (IH c' eq_refl).
    destruct s; try apply list_elem_of_further; exact IH.
  - destruct s as [p'|p' c'|l]; try discriminate.
    destruct (decide (p' = p)) as [->|]; [|discriminate].
    intros _. apply list_elem_of_here.
Qed.

Lemma last_write_not_written p ss :
  p ∉ written_paths ss -> last_write p ss = None.
Proof.
  intros H. destruct (last_write p ss) as [c|] eqn:E; [|reflexivity].
  destruct H. by apply last_write_Some_written in E.
Qed.

(** When no path is written twice, a file ends up with what was written
    to it. *)
Lemma last_write_NoDup p c ss :
  NoDup (written_paths ss) -> DoWrite p c ∈ ss -> last_write p ss = Some c.
Proof.
  induction ss as [|s ss IH]; intros Hnd Hin; [by apply elem_of_nil in Hin|].
  apply elem_of_cons in Hin as [<-|Hin].
  - cbn [written_paths] in Hnd. apply NoDup_cons in Hnd as [Hnotin _].
    cbn [last_write]. rewrite (last_write_not_written p ss Hnotin).
    by rewrite decide_True.
  - cbn [last_write]. rewrite IH; [reflexivity| |exact Hin].
    destruct s; cbn [written_paths] in Hnd; [exact Hnd| |exact Hnd].
    by apply NoDup_cons in Hnd as [_ Hnd].
Qed.




Lemma script_write_fixed now o :
  DoWrite (Script.analysis_path o) (Json.dumps_indent 2 deployment_analysis)
    ∈ Script.script now o
  /\ DoWrite (Script.manifest_path o)
       (Json.dumps_indent 2 (manifest_document now o)) ∈ Script.script now o
  /\ DoWrite (Script.vercel_path o) (Json.dumps_indent 2 vercel_config)
       ∈ Script.script now o
  /\ DoWrite (Script.netlify_path o) netlify_config ∈ Script.script now o.
Proof.
  unfold Script.script, Script.artifact_steps, Script.analysis_steps,
    Script.manifest_steps, Script.vercel_steps, Script.netlify_steps.
  repeat split; apply list_elem_of_further, elem_of_app; left;
    apply elem_of_app; right; set_solver.
Qed.

Lemma script_write_config now o server_name server_config :
  (server_name, server_config) ∈ mcp_servers o ->
  DoWrite (server_config_path (base_path o) server_name)
          (Json.dumps_indent 2 (server_config_document server_name server_config))
  ∈ Script.script now o.
Proof.
  intros H. unfold Script.script, Script.artifact_steps.
  apply list_elem_of_further, elem_of_app; left. apply elem_of_app; left.
  by apply config_steps_write.
Qed.

(** X2. When no call is refused, the base path is normalised and the ids
    of the registry are plain names (no slash) and distinct, the run
    returns and every artifact holds its document at the path [pathlib]
    builds for it: the config file of each registered server the JSON text
    of that server's config document, and the four fixed files the
    deployment analysis, the manifest of the clock reading, and the two
    descriptors. *)
Theorem run_writes_every_artifact (env : Env) (m : Machine) :
  (forall op, permits env op = true) ->
  Trace.plain_paths (self m) = true ->
  NoDup (map fst (mcp_servers (self m))) ->
  let o := Script.loaded (self m) in
  let out := run_integration env m in
  let base := base_path (self m) in
  out.1 = Returned tt
  /\ (forall server_name server_config,
         (server_name, server_config) ∈ mcp_servers (self m) ->
         files out.2 !! Pathlib.div (Pathlib.div base "mcp-configs")
                                    (server_name +:+ "_mcp_config.json")
         = Some (Json.dumps_indent 2
                   (server_config_document server_name server_config)))
  /\ files out.2 !! Pathlib.div base "deployment_analysis.json"
     = Some (Json.dumps_indent 2 deployment_analysis)
  /\ files out.2 !! Pathlib.div base "mcp_ecosystem_manifest.json"
     = Some (Json.dumps_indent 2 (manifest_document (now_isoformat env) o))
  /\ files out.2 !! Pathlib.div base "vercel.json"
     = Some (Json.dumps_indent 2 vercel_config)
  /\ files out.2 !! Pathlib.div base "netlify.toml" = Some netlify_config.
Proof.
  intros Hperm Hplain Hids. cbv zeta.
  apply andb_true_iff in Hplain as [Hbase Hnames].
  rewrite !(pathlib_div_plain (base_path (self m))) by done.
  assert (Hconfig : forall server_name server_config,
             (server_name, server_config) ∈ mcp_servers (self m) ->
             Pathlib.div (base_path (self m) /: "mcp-configs")
                         (server_name +:+ "_mcp_config.json")
             = server_config_path (base_path (self m)) server_name).
  { intros server_name server_config Hin.
    rewrite <- (pathlib_div_plain (base_path (self m)) "mcp-configs") by done.
    apply server_config_path_pathlib; [done|].
    rewrite forallb_forall in Hnames. apply Hnames.
    apply list_elem_of_In. apply list_elem_of_fmap. by exists (server_name, server_config). }
  change (base_path (self m) /: "deployment_analysis.json")
    with (Script.analysis_path (Script.loaded (self m))).
  change (base_path (self m) /: "mcp_ecosystem_manifest.json")
    with (Script.manifest_path (Script.loaded (self m))).
  change (base_path (self m) /: "vercel.json")
    with (Script.vercel_path (Script.loaded (self m))).
  change (base_path (self m) /: "netlify.toml")
    with (Script.netlify_path (Script.loaded (self m))).
  rewrite (run_integration_permitted env m Hperm). cbn [fst snd].
  set (o := Script.loaded (self m)).
  pose proof (script_written_paths_NoDup (now_isoformat env) o Hids) as Hnd.
  destruct (script_write_fixed (now_isoformat env) o) as (Ha & Hm & Hv & Hn).
  split; [reflexivity|]. split; [|repeat split].
  - intros server_name server_config Hin. rewrite apply_steps_files.
    rewrite (Hconfig _ _ Hin).
    change (base_path (self m)) with (base_path o).
    by rewrite (last_write_NoDup _ _ _ Hnd
                  (script_write_config (now_isoformat env) o _ _ Hin)).
  - rewrite apply_steps_files. by rewrite (last_write_NoDup _ _ _ Hnd Ha).
  - rewrite apply_steps_files. by rewrite (last_write_NoDup _ _ _ Hnd Hm).
  - rewrite apply_steps_files. by rewrite (last_write_NoDup _ _ _ Hnd Hv).
  - rewrite apply_steps_files. by rewrite (last_write_NoDup _ _ _ Hnd Hn).
Qed.

Lemma run_writes_every_artifact_witness :
  let o := Script.loaded (self stale_machine) in
  let out := run_integration (permissive noon) stale_machine in
  let base := base_path (self stale_machine) in
  out.1 = Returned tt
  /\ files out.2 !! Pathlib.div base "mcp_ecosystem_manifest.json"
     = Some (Json.dumps_indent 2 (manifest_document noon o))
  /\ files out.2 !! Pathlib.div base "netlify.toml" = Some netlify_config.
Proof.
  cbv zeta.
  assert (Hids : NoDup (map fst (mcp_servers (self stale_machine))))
    by (apply (bool_decide_unpack _); vm_compute; exact I).
  assert (Hplain : Trace.plain_paths (self stale_machine) = true)
    by (vm_compute; reflexivity).
  destruct (run_writes_every_artifact (permissive noon) stale_machine
              (fun _ => eq_refl) Hplain Hids) as (H1 & _ & _ & H2 & _ & H3).
  split; [exact H1|]. split; [exact H2 | exact H3].
Defined.

(** X3. A run, whether it returns or raises, leaves the base path and the
    registry of the integrator as they were and leaves its two lists
    holding the five fixed connections and the four fixed patterns, so
    nothing accumulates from one run to the next. *)
Theorem run_keeps_registry (env : Env) (m : Machine) :
  let o' := self (run_integration env m).2 in
  base_path o' = base_path (self m)
  /\ mcp_servers o' = mcp_servers (self m)
  /\ mcp_connections o' = connection_list
  /\ mcp_patterns o' = pattern_list
  /\ forall env', self (run_integration env' (run_integration env m).2).2 = o'.
Proof.
  assert (H : forall env m, self (run_integration env m).2 = Script.loaded (self m)).
  { intros env0 m0. rewrite run_integration_exec. apply exec_self. }
  cbv zeta. rewrite H. repeat split. intros env'. by rewrite !H.
Qed.

End RunEffects.

(** ** The trace of a run: calls on the file system and printed lines *)

Section RunTrace.
Import MCPEcosystemIntegrator.

Lemma omap_sink_op_prints lines : omap sink_op (map DoPrint lines) = [].
Proof. induction lines as [|l lines IH]; [reflexivity|]. exact IH. Qed.

Lemma printed_lines_prints lines : printed_lines (map DoPrint lines) = lines.
Proof.
  induction lines as [|l lines IH]; [reflexivity|].
  change (printed_lines (map DoPrint (l :: lines)))
    with (l :: printed_lines (map DoPrint lines)).
  by rewrite IH.
Qed.

Lemma printed_lines_app ss1 ss2 :
  printed_lines (ss1 ++ ss2) = printed_lines ss1 ++ printed_lines ss2.
Proof. apply omap_app. Qed.

(** The calls of the whole script. *)
Lemma script_sink_ops now o :
  omap sink_op (Script.script now o) = Trace.full_calls o.
Proof.
  unfold Script.script, Script.artifact_steps, Trace.full_calls.
  change (omap sink_op (DoPrint Script.start_line :: ?l))
    with (omap sink_op l).
  rewrite !omap_app, omap_sink_op_prints, app_nil_r. f_equal.
  unfold Script.config_steps.
  induction (mcp_servers o) as [|item items IH]; [reflexivity|].
  cbn [map concat]. rewrite omap_app, IH. reflexivity.
Qed.

(** The calls a run adds are the calls of its script up to and including
    the first refused one. *)
Lemma run_sink_calls (env : Env) m :
  exists calls,
    sink_calls (run_integration env m).2 = sink_calls m ++ calls
    /\ calls `prefix_of` Trace.full_calls (self m)
    /\ match (run_integration env m).1 with
       | Returned _ => calls = Trace.full_calls (self m)
       | Raised e => exists op, last calls = Some op /\ e = OSError (op_path op)
       end.
Proof.
  pose proof (script_sink_ops (now_isoformat env) (Script.loaded (self m)))
    as Hfull.
  change (Trace.full_calls (Script.loaded (self m)))
    with (Trace.full_calls (self m)) in Hfull.
  destruct (run_integration_cases env m) as [->|(done & r & rest & Hss & Hr & ->)];
    cbn [fst snd].
  - exists (Trace.full_calls (self m)).
    rewrite apply_steps_sink_calls, Hfull. by repeat split.
  - rewrite Hss in Hfull.
    destruct r as [p|p c|l]; try discriminate Hr;
      rewrite omap_app in Hfull; cbn [omap sink_op] in Hfull.
    + exists (omap sink_op done ++ [Mkdir p]).
      rewrite refuse_step_sink_calls, apply_steps_sink_calls.
      cbn [omap sink_op Script.load sink_calls]. rewrite <- app_assoc.
      split; [reflexivity|]. split.
      * rewrite <- Hfull. apply prefix_app. by eexists.
      * exists (Mkdir p). by rewrite last_snoc.
    + exists (omap sink_op done ++ [Open p]).
      rewrite refuse_step_sink_calls, apply_steps_sink_calls.
      cbn [omap sink_op Script.load sink_calls]. rewrite <- app_assoc.
      split; [reflexivity|]. split.
      * rewrite <- Hfull. apply prefix_app. by eexists.
      * exists (Open p). by rewrite last_snoc.
Qed.

(** X4. The calls a run makes on the file system follow one fixed order:
    for each registered server the mkdir of its config directory and then
    the open of its config file, then the opens of the deployment
    analysis, the manifest, [vercel.json] and [netlify.toml]. A run that
    returns has made all of them; a run that raises has made an initial
    part of them, and what it raises is [OSError] on the path of the last
    call it made. *)
Theorem run_calls_in_fixed_order (env : Env) (m : Machine) :
  exists calls,
    sink_calls (run_integration env m).2 = sink_calls m ++ calls
    /\ calls `prefix_of` Trace.full_calls (self m)
    /\ match (run_integration env m).1 with
       | Returned _ => calls = Trace.full_calls (self m)
       | Raised e => exists op, last calls = Some op /\ e = OSError (op_path op)
       end.
Proof. apply run_sink_calls. Qed.

Lemma startswith_append_both (a b c : string) :
  startswith (a +:+ b) (a +:+ c) = startswith b c.
Proof.
  induction a as [|x a IH]; [reflexivity|].
  rewrite !append_String. cbn [startswith]. by rewrite decide_True.
Qed.

Lemma artifact_paths_under_base o p :
  p ∈ Trace.artifact_paths o -> startswith (base_path o +:+ "/") p = true.
Proof.
  unfold Trace.artifact_paths. rewrite elem_of_app. intros [H|H].
  - induction (mcp_servers o) as [|item items IH]; [by apply elem_of_nil in H|].
    cbn [map] in H. apply elem_of_cons in H as [->|H]; [|by apply IH].
    rewrite server_config_path_eq. apply startswith_append_both.
  - unfold Script.analysis_path, Script.manifest_path, Script.vercel_path,
      Script.netlify_path, Path.div in H.
    rewrite !elem_of_cons, elem_of_nil in H.
    repeat destruct H as [H|H]; try done; subst p; apply startswith_append_both.
Qed.

Lemma full_calls_open o p :
  Open p ∈ Trace.full_calls o -> p ∈ Trace.artifact_paths o.
Proof.
  unfold Trace.full_calls, Trace.artifact_paths. rewrite !elem_of_app.
  intros [H|H]; [left|right].
  - induction (mcp_servers o) as [|item items IH]; [by apply elem_of_nil in H|].
    cbn [map concat] in H. cbn [map].
    rewrite elem_of_app in H. destruct H as [H|H].
    + rewrite !elem_of_cons, elem_of_nil in H.
      destruct H as [H|[H|[]]]; [discriminate H|].
      injection H as H. subst p. apply list_elem_of_here.
    + apply list_elem_of_further. by apply IH.
  - rewrite !elem_of_cons in H. rewrite !elem_of_cons.
    destruct H as [H|[H|[H|[H|H]]]]; [..|by apply elem_of_nil in H];
      inversion H; auto 10.
Qed.

(** X5. For a normalised base path and registry ids that are plain names
    (no slash), every file a run opens is one of the artifact paths as
    [pathlib] builds them, and lies under the base path: its path is the
    base path, a slash, and more. *)
Theorem run_opens_only_under_base (env : Env) (m : Machine) (p : string) :
  Trace.plain_paths (self m) = true ->
  Open p ∈ sink_calls (run_integration env m).2 ->
  Open p ∈ sink_calls m
  \/ (p ∈ Trace.pathlib_artifact_paths (self m)
      /\ startswith (base_path (self m) +:+ "/") p = true).
Proof.
  intros Hplain. rewrite (artifact_paths_pathlib _ Hplain).
  destruct (run_sink_calls env m) as (calls & -> & [k Hk] & _).
  rewrite elem_of_app. intros [H|H]; [by left | right].
  assert (Hp : p ∈ Trace.artifact_paths (self m)).
  { apply full_calls_open. rewrite Hk. apply elem_of_app. by left. }
  split; [exact Hp | by apply artifact_paths_under_base].
Qed.

Lemma run_opens_only_under_base_witness :
  startswith (default_base_path +:+ "/")
             (Script.manifest_path (self stale_machine)) = true.
Proof.
  destruct (run_opens_only_under_base (permissive noon) stale_machine
              (Script.manifest_path (self stale_machine))) as [H|H].
  - vm_compute. reflexivity.
  - vm_compute.
    repeat first [apply list_elem_of_here | apply list_elem_of_further].
  - vm_compute in H. by apply elem_of_nil in H.
  - exact (proj2 H).
Defined.

(** Before the closing summary no printed line starts with a line break. *)
Lemma artifact_lines_no_break now o :
  Forall (fun line => startswith newline line = false)
         (printed_lines (DoPrint Script.start_line :: Script.artifact_steps now o)).
Proof.
  unfold Script.artifact_steps. cbn [printed_lines omap].
  change (omap _ ?l) with (printed_lines l).
  apply Forall_cons. split; [reflexivity|].
  rewrite printed_lines_app. apply Forall_app. split.
  - unfold Script.config_steps.
    induction (mcp_servers o) as [|item items IH]; [apply Forall_nil_2|].
    cbn [map concat]. rewrite printed_lines_app. apply Forall_app.
    split; [|exact IH]. repeat constructor.
  - repeat constructor.
Qed.

(** A refused step of a list that ends in prints lies before the prints. *)
Lemma refused_before_prints (env : Env) done r rest X lines :
  done ++ r :: rest = X ++ map DoPrint lines ->
  step_permitted env r = false ->
  exists rest', X = done ++ r :: rest'.
Proof.
  intros Heq Hr. revert X Heq.
  induction done as [|d done IH]; intros [|x X] Heq; cbn [app] in Heq.
  - destruct lines as [|l lines]; [discriminate|].
    injection Heq as -> _. discriminate Hr.
  - injection Heq as -> _. by eexists.
  - exfalso. clear IH.
    assert (Hin : r ∈ map DoPrint lines).
    { rewrite <- Heq. apply list_elem_of_further, elem_of_app. right.
      apply list_elem_of_here. }
    apply list_elem_of_fmap in Hin as (l & -> & _). discriminate Hr.
  - injection Heq as -> Heq. destruct (IH X Heq) as [rest' ->]. by eexists.
Qed.

(** X6. The line that announces a completed integration is printed by
    exactly the runs that return: a run that raises never prints it. *)
Theorem banner_printed_iff_completed (env : Env) (m : Machine) :
  exists lines,
    stdout (run_integration env m).2 = stdout m ++ lines
    /\ match (run_integration env m).1 with
       | Returned _ => Trace.banner ∈ lines
       | Raised _ => Trace.banner ∉ lines
       end.
Proof.
  destruct (run_integration_cases env m) as [->|(done & r & rest & Hss & Hr & ->)];
    cbn [fst snd].
  - eexists. rewrite apply_steps_stdout. split; [reflexivity|].
    unfold Script.script. rewrite app_comm_cons, printed_lines_app.
    apply elem_of_app. right. rewrite printed_lines_prints.
    apply list_elem_of_here.
  - eexists. rewrite refuse_step_stdout, apply_steps_stdout.
    split; [reflexivity|].
    unfold Script.script in Hss. rewrite app_comm_cons in Hss.
    destruct (refused_before_prints env _ _ _ _ _ (eq_sym Hss) Hr) as [rest' HX].
    pose proof (artifact_lines_no_break (now_isoformat env)
                  (Script.loaded (self m))) as Hlines.
    rewrite HX, printed_lines_app in Hlines.
    apply Forall_app in Hlines as [Hdone _].
    intros Hin. rewrite Forall_forall in Hdone.
    specialize (Hdone _ Hin). discriminate Hdone.
Qed.

End RunTrace.

(** ** The lookup tables and the documents *)

Section Tables.
Import MCPEcosystemIntegrator.

Lemma registered_init base server_name :
  Checks.registered (__init__ base) server_name
  = bool_decide (server_name ∈ Trace.table_ids).
Proof. reflexivity. Qed.

Lemma tables_miss server_name :
  server_name ∉ Trace.table_ids ->
  get_server_tools server_name = []
  /\ get_server_resources server_name = []
  /\ get_server_prompts server_name = [].
Proof.
  unfold Trace.table_ids. rewrite !elem_of_cons, elem_of_nil. intros H.
  unfold get_server_tools, get_server_resources, get_server_prompts,
    tools_map, resources_map, prompts_map.
  cbn [dict_get].
  repeat (rewrite decide_False by (intros E; apply H; rewrite <- E; auto 10)).
  repeat split.
Qed.

Lemma tables_hit server_name :
  server_name ∈ Trace.table_ids ->
  length (get_server_tools server_name) = 2
  /\ length (get_server_resources server_name) = 2
  /\ length (get_server_prompts server_name) = 1.
Proof.
  unfold Trace.table_ids. rewrite !elem_of_cons, elem_of_nil.
  intros [->|[->|[->|[->|[]]]]]; repeat split.
Qed.

(** X7. The three lookup tables hold exactly the ids [__init__] registers:
    a registered server gets two tools, two resources and one prompt, and
    for any other name each of the three lookups falls back to the empty
    list. *)
Theorem tables_match_registry (base server_name : string) :
  (Checks.registered (__init__ base) server_name = true ->
     length (get_server_tools server_name) = 2
     /\ length (get_server_resources server_name) = 2
     /\ length (get_server_prompts server_name) = 1)
  /\ (Checks.registered (__init__ base) server_name = false ->
        get_server_tools server_name = []
        /\ get_server_resources server_name = []
        /\ get_server_prompts server_name = []).
Proof.
  rewrite registered_init. split; intros H.
  - apply tables_hit. by apply bool_decide_eq_true_1 in H.
  - apply tables_miss. by apply bool_decide_eq_false_1 in H.
Qed.

Lemma tables_match_registry_witness :
  (length (get_server_tools "claude_flow") = 2
   /\ length (get_server_resources "claude_flow") = 2
   /\ length (get_server_prompts "claude_flow") = 1)
  /\ (get_server_tools "github" = []
      /\ get_server_resources "github" = []
      /\ get_server_prompts "github" = []).
Proof.
  split.
  - apply (proj1 (tables_match_registry default_base_path "claude_flow")).
    reflexivity.
  - apply (proj2 (tables_match_registry default_base_path "github")).
    reflexivity.
Defined.

Lemma map_inj_on {A B} (f : A -> B) (l1 l2 : list A) :
  (forall x y, f x = f y -> x = y) -> map f l1 = map f l2 -> l1 = l2.
Proof.
  intros Hf. revert l2.
  induction l1 as [|a l1 IH]; intros [|b l2] H; try discriminate; [done|].
  cbn [map] in H. injection H as Ha H. f_equal; [by apply Hf | by apply IH].
Qed.

(** X8. The manifest loses nothing of the model: two manifests are equal
    only if they carry the same timestamp, the same connections and
    patterns in the same order, and the same server ids. *)
Theorem manifest_document_inj (t1 t2 : string) (o1 o2 : Integrator) :
  manifest_document t1 o1 = manifest_document t2 o2 ->
  t1 = t2
  /\ mcp_connections o1 = mcp_connections o2
  /\ mcp_patterns o1 = mcp_patterns o2
  /\ map fst (mcp_servers o1) = map fst (mcp_servers o2).
Proof.
  unfold manifest_document, jstrs. intros [= -> _ _ Hs Hc Hp].
  split; [reflexivity|].
  split; [by apply (map_inj_on _ _ _ connection_document_inj) in Hc|].
  split; [by apply (map_inj_on _ _ _ pattern_document_inj) in Hp|].
  by apply map_JStr_inj in Hs.
Qed.

Lemma manifest_document_inj_witness :
  noon = noon
  /\ mcp_connections (self stale_machine) = mcp_connections (self stale_machine).
Proof.
  destruct (manifest_document_inj noon noon (self stale_machine)
              (self stale_machine) eq_refl) as (H1 & H2 & _).
  split; [exact H1 | exact H2].
Defined.

Lemma written_contents_app ss1 ss2 :
  written_contents (ss1 ++ ss2) = written_contents ss1 ++ written_contents ss2.
Proof.
  induction ss1 as [|s ss1 IH]; [reflexivity|].
  destruct s; cbn [app written_contents]; by rewrite IH.
Qed.

Lemma written_contents_prints lines : written_contents (map DoPrint lines) = [].
Proof. induction lines as [|l lines IH]; [reflexivity|]. exact IH. Qed.

(** X9. What a run of a freshly constructed integrator writes into its
    artifacts does not depend on the base path: the path decides where the
    files go and is never part of their content. *)
Theorem artifact_contents_ignore_base_path (base1 base2 now : string) :
  written_contents (Script.script now (Script.loaded (__init__ base1)))
  = written_contents (Script.script now (Script.loaded (__init__ base2))).
Proof.
  unfold Script.script, Script.artifact_steps, Script.config_steps.
  cbn [written_contents].
  rewrite !written_contents_app, !written_contents_prints.
  f_equal.
Qed.

End Tables.

(** ** The JSON text *)

Section JsonText.

Lemma is_ascii_text_append (a b : string) :
  is_ascii_text (a +:+ b) = is_ascii_text a && is_ascii_text b.
Proof.
  induction a as [|x a IH]; [reflexivity|].
  rewrite append_String. cbn [is_ascii_text]. by rewrite IH, andb_assoc.
Qed.

Lemma escape_char_ascii (c : ascii) : is_ascii_text (Json.escape_char c) = true.
Proof. destruct c as [[] [] [] [] [] [] [] []]; reflexivity. Qed.

Lemma escape_ascii (s : string) : is_ascii_text (Json.escape s) = true.
Proof.
  induction s as [|c s IH]; [reflexivity|]. cbn [Json.escape].
  by rewrite is_ascii_text_append, escape_char_ascii, IH.
Qed.

Lemma encode_str_ascii (s : string) : is_ascii_text (Json.encode_str s) = true.
Proof.
  unfold Json.encode_str, q. cbn [is_ascii_text].
  by rewrite is_ascii_text_append, escape_ascii.
Qed.

Lemma string_of_uint_ascii (d : Decimal.uint) :
  is_ascii_text (NilEmpty.string_of_uint d) = true.
Proof. induction d; cbn [NilEmpty.string_of_uint is_ascii_text]; done. Qed.

Lemma string_of_int_ascii (z : Z) :
  is_ascii_text (NilZero.string_of_int (Z.to_int z)) = true.
Proof.
  unfold NilZero.string_of_int, NilZero.string_of_uint.
  destruct (Z.to_int z) as [d|d]; [|cbn [is_ascii_text]];
    destruct d; try reflexivity; apply string_of_uint_ascii.
Qed.

Lemma spaces_ascii (n : nat) : is_ascii_text (Json.spaces n) = true.
Proof. induction n as [|n IH]; [reflexivity|]. exact IH. Qed.

Lemma newline_indent_ascii indent level :
  is_ascii_text (Json.newline_indent indent level) = true.
Proof.
  destruct indent as [w|]; [|reflexivity]. unfold Json.newline_indent.
  by rewrite is_ascii_text_append, spaces_ascii.
Qed.

Lemma item_separator_ascii indent :
  is_ascii_text (Json.item_separator indent) = true.
Proof. by destruct indent. Qed.

Lemma join_ascii (sep : string) (parts : list string) :
  is_ascii_text sep = true ->
  Forall (fun p => is_ascii_text p = true) parts ->
  is_ascii_text (join sep parts) = true.
Proof.
  intros Hsep. induction 1 as [|p parts Hp Hparts IH]; [reflexivity|].
  cbn [join]. destruct parts as [|p' parts]; [exact Hp|].
  by rewrite !is_ascii_text_append, Hp, Hsep, IH.
Qed.

(** Induction on documents, with the members of lists and objects. *)
Lemma json_nested_ind (P : json -> Prop) :
  P JNull -> (forall b, P (JBool b)) -> (forall z, P (JInt z)) ->
  (forall s, P (JStr s)) ->
  (forall items, Forall P items -> P (JList items)) ->
  (forall members, Forall (fun kv => P (snd kv)) members -> P (JObj members)) ->
  forall v, P v.
Proof.
  intros HN HB HZ HS HL HO. fix IH 1.
  intros [| b | z | s | items | members];
    [exact HN | apply HB | apply HZ | apply HS | |].
  - apply HL.
    refine ((fix go (l : list json) : Forall P l :=
               match l with
               | [] => @List.Forall_nil _ P
               | x :: l' => @List.Forall_cons _ P x l' (IH x) (go l')
               end) items).
  - apply HO.
    refine ((fix go (l : list (string * json)) : Forall (fun kv => P (snd kv)) l :=
               match l with
               | [] => @List.Forall_nil _ _
               | kv :: l' => @List.Forall_cons _ _ kv l' (IH (snd kv)) (go l')
               end) members).
Qed.

(** X10. The JSON text of a document is pure ASCII, whatever strings the
    document holds: every character of the output of [json.dumps], with or
    without [indent], is printable ASCII or a line break. So is every JSON
    artifact of a run. *)
Theorem json_text_is_ascii (indent : option nat) (level : nat) (v : json) :
  is_ascii_text (Json.encode indent level v) = true.
Proof.
  revert level. induction v as [| b | z | s | items IH | members IH]
    using json_nested_ind; intros level; cbn [Json.encode].
  - reflexivity.
  - by destruct b.
  - apply string_of_int_ascii.
  - apply encode_str_ascii.
  - destruct items as [|v items]; [reflexivity|].
    rewrite !is_ascii_text_append, !newline_indent_ascii.
    cbn [is_ascii_text]. rewrite join_ascii; [reflexivity| |].
    + by rewrite is_ascii_text_append, item_separator_ascii, newline_indent_ascii.
    + apply Forall_forall. intros p Hp.
      apply list_elem_of_In, in_map_iff in Hp as (x & <- & Hx).
      apply list_elem_of_In in Hx.
      rewrite Forall_forall in IH. by apply IH.
  - destruct members as [|kv members]; [reflexivity|].
    rewrite !is_ascii_text_append, !newline_indent_ascii.
    cbn [is_ascii_text]. rewrite join_ascii; [reflexivity| |].
    + by rewrite is_ascii_text_append, item_separator_ascii, newline_indent_ascii.
    + apply Forall_forall. intros p Hp.
      apply list_elem_of_In, in_map_iff in Hp as (x & <- & Hx).
      apply list_elem_of_In in Hx.
      rewrite !is_ascii_text_append, encode_str_ascii.
      rewrite Forall_forall in IH. by rewrite (IH x Hx).
Qed.

End JsonText.
